(** * The rum model of test, trace and isolate: a shallow embedding

    The Python sources [rum_model/model.py], [rum_model/parameters.py] and
    [rum_model/utils.py] are embedded function by function.

    Numbers.  The program computes on IEEE double precision numbers.  They
    are modelled by [float64]: an exact rational (no rounding, no overflow,
    a single unsigned zero) or one of the three special values that numpy
    and pandas produce without raising, [+inf], [-inf] and [NaN].  All
    equalities proved below are therefore equalities of exact arithmetic.

    Errors.  Python exceptions are modelled by the [result] monad.

    Libraries.  [numpy.convolve], [numpy.arange], [ndarray.sum],
    [Series.sum] (which skips NaN), the [DataFrame] constructor and the left
    merge followed by [fillna(0)] are modelled from their documented
    behaviour in the modules [np] and [pd].  [scipy.stats.gamma.pdf] and
    [scipy.interpolate.interp1d] enter as section variables. *)

From Stdlib Require Import String ZArith QArith Qcanon Qround List Bool Lia Lqa.
Import ListNotations.

Set Implicit Arguments.

(** ** Exceptions *)

Inductive exn := ValueError | UnboundLocalError.

Inductive result (A : Type) :=
| Ok (a : A)
| Raise (e : exn).

Arguments Ok {A} a.
Arguments Raise {A} e.

Definition bind {A B} (m : result A) (k : A -> result B) : result B :=
  match m with
  | Ok a => k a
  | Raise e => Raise e
  end.

Notation "x <- m ;; k" := (bind m (fun x => k))
  (at level 61, m at next level, right associativity).

(** ** Double precision numbers, without rounding *)

Inductive float64 :=
| Fin (q : Qc)
| PInf
| NInf
| NaN.

Declare Scope float64_scope.
Delimit Scope float64_scope with f.
Bind Scope float64_scope with float64.

Definition is_nan (x : float64) : bool :=
  match x with NaN => true | _ => false end.


(** The sign of a rational: [Lt] for negative, [Eq] for zero, [Gt] for
    positive. *)
Definition Qc_sign (q : Qc) : comparison := (q ?= 0)%Qc.

Definition fneg (x : float64) : float64 :=
  match x with
  | Fin q => Fin (- q)
  | PInf => NInf
  | NInf => PInf
  | NaN => NaN
  end.

Definition fadd (x y : float64) : float64 :=
  match x, y with
  | NaN, _ | _, NaN => NaN
  | Fin a, Fin b => Fin (a + b)
  | PInf, NInf | NInf, PInf => NaN
  | PInf, _ | _, PInf => PInf
  | NInf, _ | _, NInf => NInf
  end.

Definition fsub (x y : float64) : float64 := fadd x (fneg y).

(** An infinity of the sign of [s], or NaN when [s] is the sign of zero. *)
Definition inf_of_sign (s : comparison) : float64 :=
  match s with
  | Gt => PInf
  | Lt => NInf
  | Eq => NaN
  end.

Definition fsign (x : float64) : option comparison :=
  match x with
  | Fin q => Some (Qc_sign q)
  | PInf => Some Gt
  | NInf => Some Lt
  | NaN => None
  end.

Definition sign_mul (s t : comparison) : comparison :=
  match s, t with
  | Eq, _ | _, Eq => Eq
  | Gt, Gt | Lt, Lt => Gt
  | _, _ => Lt
  end.

Definition fmul (x y : float64) : float64 :=
  match x, y with
  | NaN, _ | _, NaN => NaN
  | Fin a, Fin b => Fin (a * b)
  | _, _ =>
      match fsign x, fsign y with
      | Some s, Some t => inf_of_sign (sign_mul s t)
      | _, _ => NaN
      end
  end.

(** Division as numpy and pandas perform it on arrays: a zero divisor
    raises nothing, [0/0] is NaN and [x/0] is an infinity of the sign of
    [x]. *)
Definition fdiv (x y : float64) : float64 :=
  match x, y with
  | NaN, _ | _, NaN => NaN
  | Fin a, Fin b =>
      if Qc_eq_dec b 0 then inf_of_sign (Qc_sign a) else Fin (a / b)
  | Fin _, _ => Fin 0
  | _, Fin b =>
      match fsign x with
      | Some s => inf_of_sign (sign_mul s (match Qc_sign b with Lt => Lt | _ => Gt end))
      | None => NaN
      end
  | _, _ => NaN
  end.

Infix "+" := fadd : float64_scope.
Infix "-" := fsub : float64_scope.
Infix "*" := fmul : float64_scope.
Infix "/" := fdiv : float64_scope.
Notation "0" := (Fin 0) : float64_scope.
Notation "1" := (Fin 1) : float64_scope.


(** Equality of two numbers as a boolean. *)
Definition float64_eqb (x y : float64) : bool :=
  match x, y with
  | Fin a, Fin b => Qc_eq_bool a b
  | PInf, PInf | NInf, NInf | NaN, NaN => true
  | _, _ => false
  end.

(** ** numpy *)

Module np.

(** [ndarray.sum()]: NaN and the infinities propagate. *)
Definition sum (l : list float64) : float64 := fold_left fadd l 0%f.

(** [arr / s] for a scalar [s]. *)
Definition div_scalar (l : list float64) (s : float64) : list float64 :=
  map (fun x => (x / s)%f) l.

(** [numpy.arange(start, stop, 1)] on integers: [stop] is excluded. *)
Definition arange (start stop : Z) : list Z :=
  map (fun i => (start + Z.of_nat i)%Z) (seq 0 (Z.to_nat (stop - start))).

(** [numpy.arange(start, stop, step)] on non-integers: the values
    [start + i * step] for [i < ceil((stop - start) / step)]. *)
Definition arange_step (start stop step : Qc) : list Qc :=
  map (fun i => (start + Q2Qc (inject_Z (Z.of_nat i)) * step)%Qc)
      (seq 0 (Z.to_nat (Qceiling ((stop - start) / step)%Qc))).

(** Entry [m] of the full discrete convolution, [sum_i a[i] * v[m-i]]
    over the index pairs that lie inside both arrays. *)
Definition convolve_at (a v : list float64) (m : nat) : float64 :=
  sum (map (fun i => (nth i a 0 * nth (m - i) v 0)%f)
           (filter (fun i => (i <=? m)%nat && (m - i <? length v)%nat)
                   (seq 0 (length a)))).

(** [numpy.convolve(a, v, 'same')]: the operands are swapped when [v] is
    the longer one, an empty operand raises, and the result is the slice
    of the full convolution of the length of the longer operand, centred:
    it starts at index [(n - 1) / 2] where [n] is the length of the
    shorter operand. *)
Definition convolve_same (a v : list float64) : result (list float64) :=
  let '(a, v) := if (length a <? length v)%nat then (v, a) else (a, v) in
  if (length a =? 0)%nat then Raise ValueError
  else if (length v =? 0)%nat then Raise ValueError
  else
    let off := ((length v - 1) / 2)%nat in
    Ok (map (fun k => convolve_at a v (k + off)) (seq 0 (length a))).

End np.

(** ** pandas *)

Record row := { delay : Z; frequency : float64 }.

(** A frame with the two columns ['delay'] and ['frequency']. *)
Definition DataFrame := list row.

Module pd.

(** [df['delay']] and [df['frequency']]. *)
Definition col_delay (df : DataFrame) : list Z := map delay df.
Definition col_frequency (df : DataFrame) : list float64 := map frequency df.

(** [Series.sum()] with the default [skipna=True]: NaN entries count as
    zero, infinities do not. *)
Definition sum (l : list float64) : float64 :=
  np.sum (filter (fun x => negb (is_nan x)) l).

(** [pd.DataFrame({'delay': d, 'frequency': f})]: columns of different
    lengths raise. *)
Definition DataFrame_of (d : list Z) (f : list float64) : result DataFrame :=
  if (length d =? length f)%nat
  then Ok (map (fun p => {| delay := fst p; frequency := snd p |}) (combine d f))
  else Raise ValueError.

(** [df[mask(df)]]: the rows selected by a boolean mask. *)
Definition select (mask : row -> bool) (df : DataFrame) : DataFrame :=
  filter mask df.

(** [df.loc[mask(df), 'frequency'] = x]. *)
Definition loc_set_frequency (mask : row -> bool) (x : float64)
           (df : DataFrame) : DataFrame :=
  map (fun r => if mask r then {| delay := delay r; frequency := x |} else r) df.

(** [df['frequency'] /= s], also [df['frequency'] = df['frequency'] / s]. *)
Definition div_frequency (df : DataFrame) (s : float64) : DataFrame :=
  map (fun r => {| delay := delay r; frequency := (frequency r / s)%f |}) df.

Definition fillna0 (x : float64) : float64 :=
  if is_nan x then 0%f else x.

(** [pd.DataFrame({'delay': axis}).merge(df, how='left', on='delay').fillna(0)]:
    one row per matching row of [df], and a zero row for every delay of
    [axis] that [df] does not have. *)
Definition merge_left_fillna0 (axis : list Z) (df : DataFrame) : DataFrame :=
  flat_map (fun d =>
              match filter (fun r => (delay r =? d)%Z) df with
              | [] => [{| delay := d; frequency := 0%f |}]
              | rows => map (fun r => {| delay := d; frequency := fillna0 (frequency r) |}) rows
              end) axis.

(** [Series.min()] and [Series.max()] of a delay column: NaN, here [None],
    on an empty column. *)
Definition series_min (l : list Z) : option Z :=
  match l with
  | [] => None
  | x :: l' => Some (fold_left Z.min l' x)
  end.

Definition series_max (l : list Z) : option Z :=
  match l with
  | [] => None
  | x :: l' => Some (fold_left Z.max l' x)
  end.

End pd.

(** The record that [TT_model_rum] returns: a Python dict, in the order of
    its literal. *)
Definition dict := list (string * float64).

Definition dict_get (d : dict) (k : string) : option float64 :=
  match find (fun p => String.eqb (fst p) k) d with
  | Some p => Some (snd p)
  | None => None
  end.

Definition dict_keys (d : dict) : list string := map fst d.

(** ** scipy *)

Module scipy.

Definition Qc_leb (a b : Qc) : bool := Qle_bool a b.

(** [min] and [max] of a column; an empty one raises. *)
Definition Qc_min_list (l : list Qc) : result Qc :=
  match l with
  | [] => Raise ValueError
  | x :: l' => Ok (fold_left (fun m y => if Qc_leb y m then y else m) l' x)
  end.

Definition Qc_max_list (l : list Qc) : result Qc :=
  match l with
  | [] => Raise ValueError
  | x :: l' => Ok (fold_left (fun m y => if Qc_leb m y then y else m) l' x)
  end.

(** [interp1d(x, y, kind='cubic')] builds a cubic spline through the knots
    and raises when there are fewer than four of them; the spline itself
    is the parameter [spline], whose value at [t] is [spline x y t], the
    knots being distinct.  Evaluating outside of the range of the knots
    raises ([bounds_error] is on by default). *)
Definition interp1d_cubic (spline : list Qc -> list float64 -> Qc -> float64)
           (x : list Qc) (y : list float64) : result (list Qc -> result (list float64)) :=
  if negb (length x =? length y)%nat then Raise ValueError
  else if (length x <? 4)%nat then Raise ValueError
  else
    lo <- Qc_min_list x ;;
    hi <- Qc_max_list x ;;
    Ok (fun ts =>
          if forallb (fun t => Qc_leb lo t && Qc_leb t hi) ts
          then Ok (map (spline x y) ts)
          else Raise ValueError).

End scipy.

(** A decimal constant [n / d]. *)
Definition dec (n : Z) (d : positive) : Qc := Q2Qc (n # d).

(** ** Python builtins *)

Module py.

(** [min(l)] and [max(l)] on a list of delays, [None] standing for NaN: an
    empty list raises, and since every comparison with NaN is false a NaN
    is kept when it comes first and skipped otherwise. *)
Definition min (l : list (option Z)) : result (option Z) :=
  match l with
  | [] => Raise ValueError
  | x :: l' =>
      Ok (fold_left (fun m y =>
                       match y, m with
                       | Some a, Some b => if (a <? b)%Z then y else m
                       | _, _ => m
                       end) l' x)
  end.

Definition max (l : list (option Z)) : result (option Z) :=
  match l with
  | [] => Raise ValueError
  | x :: l' =>
      Ok (fold_left (fun m y =>
                       match y, m with
                       | Some a, Some b => if (b <? a)%Z then y else m
                       | _, _ => m
                       end) l' x)
  end.

(** [math.floor] and [math.ceil]: the identity on an integer, an error on
    NaN. *)
Definition math_floor (x : option Z) : result Z :=
  match x with
  | Some z => Ok z
  | None => Raise ValueError
  end.

Definition math_ceil (x : option Z) : result Z := math_floor x.

End py.

(** ** rum_model/utils.py *)

Module utils.

(** [int(float(x))]: truncation towards zero. *)
Definition int_of (x : Qc) : Z := Z.quot (Qnum x) (Zpos (Qden x)).

(** [process_delay_column] on the text ["(a, b]"], given as its two
    numerals [a] and [b]. *)
Definition process_delay_column (text : Qc * Qc) : Qc :=
  let end_points := (int_of (fst text), int_of (snd text)) in
  (Q2Qc (inject_Z (fst end_points + snd end_points)) / Q2Qc (inject_Z 2))%Qc.

Section interpolation.

Variable spline : list Qc -> list float64 -> Qc -> float64.

(** [process_TT_e2e_file] on the table that [read_csv] returns, transposed:
    one interval and one frequency per row. *)
Definition process_TT_e2e_file (e2e : list ((Qc * Qc) * float64)) : result DataFrame :=
  let x := map (fun r => process_delay_column (fst r)) e2e in
  lo <- scipy.Qc_min_list x ;;
  hi <- scipy.Qc_max_list x ;;
  let x_new := np.arange (Qceiling lo) (Qfloor hi) in
  f <- scipy.interp1d_cubic spline x (map snd e2e) ;;
  freq_new <- f (map (fun d => Q2Qc (inject_Z d)) x_new) ;;
  let freq_new := np.div_scalar freq_new (np.sum freq_new) in
  e2e_df <- pd.DataFrame_of x_new freq_new ;;
  Ok (pd.div_frequency e2e_df (pd.sum (pd.col_frequency e2e_df))).

End interpolation.

(** [pad_with_zeros]: the common symmetric axis is found from the least
    and the greatest delay over all frames, and every frame is merged
    onto it. *)
Definition pad_with_zeros (df_list : list DataFrame) (min_delay_bound : Z)
  : result (list DataFrame) :=
  least <- py.min (map (fun df => pd.series_min (pd.col_delay df)) df_list) ;;
  min_delay <- py.math_floor least ;;
  greatest <- py.max (map (fun df => pd.series_max (pd.col_delay df)) df_list) ;;
  max_delay <- py.math_ceil greatest ;;
  let delay_bound := Z.max (Z.max max_delay (- min_delay)) min_delay_bound in
  let delay := np.arange (- delay_bound) (delay_bound + 1) in
  Ok (map (fun df => pd.merge_left_fillna0 delay df) df_list).

End utils.

(** ** rum_model/parameters.py *)

Module parameters.

Section epidemiology.

(** [scipy.stats.gamma.pdf(x, a, loc=0, scale=1)], as [gamma_pdf x a]. *)
Variable gamma_pdf : Qc -> Qc -> float64.

(** The cubic spline of [scipy.interpolate.interp1d]. *)
Variable spline : list Qc -> list float64 -> Qc -> float64.

Definition dgamma (x : list Qc) (shape rate : Qc) : list float64 :=
  map (fun xi => (Fin rate * gamma_pdf (rate * xi)%Qc shape)%f) x.

(** The body shared, up to the two constants, by [get_incubation_period]
    and [get_serial_interval]. *)
Definition gamma_frame (shape rate : Qc) (delay_bound : Z) : result DataFrame :=
  let max_coord := 40%Z in
  let delay_days := np.arange_step 0 (Q2Qc (inject_Z max_coord) + dec 1 1000) (dec 1 24) in
  let freq := dgamma delay_days shape rate in
  let freq := np.div_scalar freq (np.sum freq) in
  let delay := np.arange 0 (max_coord * 24 + 1) in
  df <- pd.DataFrame_of delay freq ;;
  let delay_padded := np.arange (- delay_bound) (delay_bound + 1) in
  Ok (pd.merge_left_fillna0 delay_padded df).

Definition get_incubation_period (delay_bound : Z) : result DataFrame :=
  gamma_frame (dec 423 100) (dec 81 100) delay_bound.

Definition get_serial_interval (delay_bound : Z) : result DataFrame :=
  gamma_frame (dec 518 100) (dec 96 100) delay_bound.

(** The published infectiousness curve, daily from -5 to 10 days. *)
Definition coarse_infectiousness : list float64 :=
  map (fun n => Fin (Q2Qc (n # 1000000000000000000)))
      [ 22378193725908300; 35311746312840400; 66265116634424900;
        103030125971041000; 134813059932273000; 150505975534097000;
        145114140517949000; 122150668663839000; 90637282628540700;
        59800573128902200; 35357288295091900; 18866386876223800;
        9143443809612720; 4048236058057590; 1646108958453320;
        617722128227433 ]%Z.

Definition get_symptom_to_onward_vector (delay_bound : Z) (option : string)
  : result DataFrame :=
  if String.eqb option "he" then
    serial_interval_vector <- get_serial_interval delay_bound ;;
    incubation_period_vector <- get_incubation_period delay_bound ;;
    frequency <- np.convolve_same (pd.col_frequency serial_interval_vector)
                                  (rev (pd.col_frequency incubation_period_vector)) ;;
    let frequency := np.div_scalar frequency (np.sum frequency) in
    symptom_to_onward_data <-
      pd.DataFrame_of (pd.col_delay serial_interval_vector) frequency ;;
    let symptom_to_onward_data :=
      pd.loc_set_frequency (fun r => (delay r <? -2 * 24)%Z) 0%f symptom_to_onward_data in
    Ok (pd.div_frequency symptom_to_onward_data
                         (pd.sum (pd.col_frequency symptom_to_onward_data)))
  else if String.eqb option "ashcroft" then
    let coarse_delay := map (fun i => (-5 * 24 + 24 * Z.of_nat i)%Z) (seq 0 16) in
    let fine_delay := np.arange (-5 * 24) (10 * 24 + 1) in
    f <- scipy.interp1d_cubic spline (map (fun d => Q2Qc (inject_Z d)) coarse_delay)
                              coarse_infectiousness ;;
    symptom_to_onward <- f (map (fun d => Q2Qc (inject_Z d)) fine_delay) ;;
    symptom_to_onward_data <- pd.DataFrame_of fine_delay symptom_to_onward ;;
    let symptom_to_onward_data :=
      pd.div_frequency symptom_to_onward_data
                       (pd.sum (pd.col_frequency symptom_to_onward_data)) in
    let delay_padded := np.arange (- delay_bound) (delay_bound + 1) in
    Ok (pd.merge_left_fillna0 delay_padded symptom_to_onward_data)
  else Raise UnboundLocalError.

End epidemiology.

Definition get_time_to_tertiary_infection
           (secondary_symptoms_to_tertiary symptoms_to_symptoms : DataFrame)
  : result DataFrame :=
  time_to_tertiary <-
    np.convolve_same (pd.col_frequency secondary_symptoms_to_tertiary)
                     (pd.col_frequency symptoms_to_symptoms) ;;
  pd.DataFrame_of (pd.col_delay secondary_symptoms_to_tertiary) time_to_tertiary.

Definition get_contact_isolation_impact
           (time_to_tertiary_infection total_time_to_contact : DataFrame)
  : result float64 :=
  diff_freq <-
    np.convolve_same (pd.col_frequency time_to_tertiary_infection)
                     (rev (pd.col_frequency total_time_to_contact)) ;;
  diff_df <- pd.DataFrame_of (pd.col_delay time_to_tertiary_infection) diff_freq ;;
  let prob := pd.sum (pd.col_frequency (pd.select (fun r => (0 <? delay r)%Z) diff_df)) in
  Ok prob.

(** Lines 346 to 348 of [get_symptom_and_contact_success]: the frequencies
    at negative delays are set to zero in place and the column is divided
    by its sum. *)
Definition enforce_positive (secondary_symptoms_to_tertiary : DataFrame) : DataFrame :=
  let secondary_symptoms_to_tertiary :=
    pd.loc_set_frequency (fun r => (delay r <? 0)%Z) 0%f secondary_symptoms_to_tertiary in
  pd.div_frequency secondary_symptoms_to_tertiary
                   (pd.sum (pd.col_frequency secondary_symptoms_to_tertiary)).

Definition get_symptom_and_contact_success
           (symptom_isolation_success symptomatic_rate symptomatic_ascertainment_rate
            compliance_with_contact_isolation percentage_notified : float64)
           (secondary_symptoms_to_tertiary serial_interval total_time_to_contact : DataFrame)
  : result float64 :=
  let secondary_symptoms_to_tertiary := enforce_positive secondary_symptoms_to_tertiary in
  time_to_tertiary_infection <-
    get_time_to_tertiary_infection secondary_symptoms_to_tertiary serial_interval ;;
  conditional_contact_impact <-
    get_contact_isolation_impact time_to_tertiary_infection total_time_to_contact ;;
  let symptom_and_contact :=
    (symptom_isolation_success *
     symptomatic_rate *
     symptomatic_ascertainment_rate *
     percentage_notified *
     compliance_with_contact_isolation *
     conditional_contact_impact)%f in
  Ok symptom_and_contact.

(** The dictionary that [calculate_time_distributions] returns. *)
Record time_distributions := {
  infectiousness_option : string;
  total_time_to_contact : DataFrame;
  target_total_time_to_contact : DataFrame;
  secondary_symptoms_to_tertiary : DataFrame;
  serial_interval : DataFrame;
  time_to_tertiary_infection : DataFrame
}.

Section time_distributions.

Variable gamma_pdf : Qc -> Qc -> float64.
Variable spline : list Qc -> list float64 -> Qc -> float64.

(** [calculate_time_distributions], the two files being given by the
    tables that [read_csv] finds in them and the configuration by its
    entry ['infectiousness_option'].  A delay bound that is NaN makes
    [numpy.arange] raise. *)
Definition calculate_time_distributions
           (e2e_file target_e2e_file : list ((Qc * Qc) * float64))
           (infectiousness_option : string) : result time_distributions :=
  e2e_df <- utils.process_TT_e2e_file spline e2e_file ;;
  target_e2e_df <- utils.process_TT_e2e_file spline target_e2e_file ;;
  padded <- utils.pad_with_zeros [target_e2e_df; e2e_df] (40 * 24) ;;
  match padded with
  | [target_e2e_df; e2e_df] =>
      match pd.series_max (pd.col_delay e2e_df) with
      | Some delay_bound =>
          symptoms_to_secondary <-
            get_symptom_to_onward_vector gamma_pdf spline delay_bound
                                         infectiousness_option ;;
          symptoms_to_symptoms <- get_serial_interval gamma_pdf delay_bound ;;
          time_to_tertiary_infection <-
            get_time_to_tertiary_infection symptoms_to_secondary symptoms_to_symptoms ;;
          Ok {| infectiousness_option := infectiousness_option;
                total_time_to_contact := e2e_df;
                target_total_time_to_contact := target_e2e_df;
                secondary_symptoms_to_tertiary := symptoms_to_secondary;
                serial_interval := symptoms_to_symptoms;
                time_to_tertiary_infection := time_to_tertiary_infection |}
      | None => Raise ValueError
      end
  | _ => Raise ValueError
  end.

End time_distributions.

End parameters.

(** ** rum_model/model.py *)

Module model.

Definition TT_model_rum
           (symptomatic_ascertainment_rate
            symptomatic_rate
            percentage_notified
            compliance_with_symptom_isolation_test
            compliance_with_symptom_isolation_no_test
            compliance_with_contact_isolation : float64)
           (serial_interval
            secondary_symptoms_to_tertiary
            time_to_tertiary_infection
            total_time_to_contact : DataFrame) : result dict :=
  let adherence_symptom_isolation :=
    (symptomatic_rate *
     symptomatic_ascertainment_rate *
     compliance_with_symptom_isolation_test +
     (1 - symptomatic_ascertainment_rate) *
     symptomatic_rate *
     compliance_with_symptom_isolation_no_test)%f in
  let adherence_symptom_isolation_impact :=
    pd.sum (pd.col_frequency
              (pd.select (fun r => (0 <=? delay r)%Z) secondary_symptoms_to_tertiary)) in
  let symptom_isolation_success :=
    (adherence_symptom_isolation_impact * adherence_symptom_isolation)%f in
  let primary_tested := (symptomatic_rate * symptomatic_ascertainment_rate)%f in
  let proportion_contacts_reached := (primary_tested * percentage_notified)%f in
  let proportion_contacts_reached_compliant :=
    (proportion_contacts_reached * compliance_with_contact_isolation)%f in
  adherence_contact_isolation_impact <-
    parameters.get_contact_isolation_impact time_to_tertiary_infection
                                            total_time_to_contact ;;
  let proportion_transmission_pre_contact := (1 - adherence_contact_isolation_impact)%f in
  let transmission_occuring_pre_symptom := (1 - adherence_symptom_isolation_impact)%f in
  let contact_isolation_success :=
    (proportion_contacts_reached_compliant * adherence_contact_isolation_impact)%f in
  symptom_and_contact_success <-
    parameters.get_symptom_and_contact_success
      symptom_isolation_success
      symptomatic_rate
      symptomatic_ascertainment_rate
      compliance_with_contact_isolation
      percentage_notified
      secondary_symptoms_to_tertiary
      serial_interval
      total_time_to_contact ;;
  let overall_success :=
    (symptom_isolation_success +
     contact_isolation_success -
     symptom_and_contact_success)%f in
  let marginal_impact := (overall_success - symptom_isolation_success)%f in
  let contributions_dict :=
    [ ("primary_tested", primary_tested);
      ("adherence_symptom_isolation", adherence_symptom_isolation);
      ("adherence_symptom_isolation_impact", adherence_symptom_isolation_impact);
      ("symptom_isolation_success", symptom_isolation_success);
      ("proportion_contacts_reached", proportion_contacts_reached);
      ("proportion_contacts_reached_compliant", proportion_contacts_reached_compliant);
      ("adherence_contact_isolation_impact", adherence_contact_isolation_impact);
      ("contact_isolation_success", contact_isolation_success);
      ("transmission_pre_contact", proportion_transmission_pre_contact);
      ("transmission_occuring_pre_symptom", transmission_occuring_pre_symptom);
      ("transmission_averted", overall_success);
      ("marginal_impact", marginal_impact);
      ("symptom_and_contact_success", symptom_and_contact_success) ]%string in
  Ok contributions_dict.

End model.

(** ** run.py *)

Module run.

(** A row of the scenarios file. *)
Record scenario := {
  Scenario : string;
  symptomatic_rate : float64;
  symptomatic_ascertainment_rate : float64;
  percentage_notified : float64;
  compliance_with_symptom_isolation_test : float64;
  compliance_with_symptom_isolation_no_test : float64;
  contact_compliance_with_isolation : float64;
  Distribution : string
}.

(** A value of an output row: a text or a number. *)
Inductive cell :=
| Text (s : string)
| Number (x : float64).

Definition record := list (string * cell).

Definition record_get (d : record) (k : string) : option cell :=
  match find (fun p => String.eqb (fst p) k) d with
  | Some p => Some (snd p)
  | None => None
  end.

(** [{**a, **b}]: the keys of [a] in their order, with the value of [b]
    where [b] has the key too, and then the keys that only [b] has. *)
Definition merge (a b : record) : record :=
  map (fun p => (fst p, match record_get b (fst p) with
                        | Some v => v
                        | None => snd p
                        end)) a
  ++ filter (fun p => match record_get a (fst p) with
                      | Some _ => false
                      | None => true
                      end) b.

(** The body of the loop of [main] on one row. *)
Definition run_scenario (time_distributions_dict : parameters.time_distributions)
           (row : scenario) : result record :=
  let symptomatic_rate := symptomatic_rate row in
  let symptomatic_ascertainment_rate := symptomatic_ascertainment_rate row in
  let percentage_notified := percentage_notified row in
  let compliance_with_symptom_isolation_test :=
    compliance_with_symptom_isolation_test row in
  let compliance_with_symptom_isolation_no_test :=
    compliance_with_symptom_isolation_no_test row in
  let compliance_with_contact_isolation := contact_compliance_with_isolation row in
  let distribution := Distribution row in
  let scenario_name := Scenario row in
  let secondary_symptoms_to_tertiary :=
    parameters.secondary_symptoms_to_tertiary time_distributions_dict in
  let time_to_tertiary_infection :=
    parameters.time_to_tertiary_infection time_distributions_dict in
  let serial_interval := parameters.serial_interval time_distributions_dict in
  let total_time_to_contact :=
    if String.eqb distribution "October Distribution"
    then parameters.total_time_to_contact time_distributions_dict
    else parameters.target_total_time_to_contact time_distributions_dict in
  let parameter_dict :=
    [ ("Scenario", Text scenario_name);
      ("symptomatic_ascertainment_rate", Number symptomatic_ascertainment_rate);
      ("symptomatic_rate", Number symptomatic_rate);
      ("percentage_notified", Number percentage_notified);
      ("compliance_with_symptom_isolation_test",
       Number compliance_with_symptom_isolation_test);
      ("compliance_with_symptom_isolation_no_test",
       Number compliance_with_symptom_isolation_no_test);
      ("compliance_with_contact_isolation", Number compliance_with_contact_isolation);
      ("distribution", Text distribution) ]%string in
  output <- model.TT_model_rum
              symptomatic_ascertainment_rate
              symptomatic_rate
              percentage_notified
              compliance_with_symptom_isolation_test
              compliance_with_symptom_isolation_no_test
              compliance_with_contact_isolation
              serial_interval
              secondary_symptoms_to_tertiary
              time_to_tertiary_infection
              total_time_to_contact ;;
  Ok (merge parameter_dict (map (fun p => (fst p, Number (snd p))) output)).

(** The loop of [main]: the rows are appended to [output_df] one by one,
    and the first exception ends the run. *)
Fixpoint run_scenarios (time_distributions_dict : parameters.time_distributions)
         (scenarios_df : list scenario) (output_df : list record)
  : result (list record) :=
  match scenarios_df with
  | [] => Ok output_df
  | row :: scenarios_df =>
      new_row <- run_scenario time_distributions_dict row ;;
      run_scenarios time_distributions_dict scenarios_df (output_df ++ [new_row])
  end.

Section main.

Variable gamma_pdf : Qc -> Qc -> float64.
Variable spline : list Qc -> list float64 -> Qc -> float64.

(** [main], from the reading of the scenarios to the returned frame: the
    files are given by their contents and the model settings by the
    infectiousness option; the checks of the directories, the printing and
    the writing of the output file are left out. *)
Definition main (scenarios_df : list scenario)
           (e2e_file target_e2e_file : list ((Qc * Qc) * float64))
           (infectiousness_option : string) : result (list record) :=
  time_distributions_dict <-
    parameters.calculate_time_distributions gamma_pdf spline e2e_file target_e2e_file
                                            infectiousness_option ;;
  run_scenarios time_distributions_dict scenarios_df [].

End main.

End run.

(** ** Exact arithmetic on finite tables

    What [np] and [pd] compute when every entry is a finite number and no
    divisor is zero, on lists of rationals. *)

Module exact.

Definition sum (l : list Qc) : Qc := fold_right Qcplus 0%Qc l.

Definition convolve_at (a v : list Qc) (m : nat) : Qc :=
  sum (map (fun i => (nth i a 0 * nth (m - i) v 0)%Qc)
           (filter (fun i => (i <=? m)%nat && (m - i <? length v)%nat)
                   (seq 0 (length a)))).

Definition convolve_same (a v : list Qc) : list Qc :=
  map (fun k => convolve_at a v (k + (length v - 1) / 2)) (seq 0 (length a)).

(** The mass of the entries whose delay satisfies [keep]. *)
Definition mass (keep : Z -> bool) (ds : list Z) (fs : list Qc) : Qc :=
  sum (map (fun p => if keep (fst p) then snd p else 0%Qc) (combine ds fs)).

End exact.

(** A table with finite frequencies, and the frame that holds it. *)
Definition pmf := list (Z * Qc).

Definition axis (p : pmf) : list Z := map fst p.
Definition freq (p : pmf) : list Qc := map snd p.

Definition to_frame (p : pmf) : DataFrame :=
  map (fun r => {| delay := fst r; frequency := Fin (snd r) |}) p.

Definition nonneg (p : pmf) : Prop := Forall (fun r => (0 <= snd r)%Qc) p.

Definition total (p : pmf) : Qc := exact.sum (freq p).

(** The table of [get_time_to_tertiary_infection] on finite tables. *)
Definition time_to_tertiary (s si : pmf) : pmf :=
  combine (axis s) (exact.convolve_same (freq s) (freq si)).

(** The table with the frequencies at negative delays set to zero. *)
Definition zero_negative (s : pmf) : pmf :=
  map (fun r => (fst r, if (fst r <? 0)%Z then 0%Qc else snd r)) s.

(** The table with every frequency divided by [k]. *)
Definition scale (k : Qc) (s : pmf) : pmf :=
  map (fun r => (fst r, (snd r / k)%Qc)) s.

(** The spec's [tail_probability_positive]: convolve [dist_a] with the
    reversal of [dist_b], in 'same' mode, and add the mass that lies
    strictly above delay 0. *)
Definition tail_probability_positive (dist_a dist_b : pmf) : Qc :=
  exact.mass (fun d => (0 <? d)%Z) (axis dist_a)
             (exact.convolve_same (freq dist_a) (rev (freq dist_b))).


(** The conditional impact that [get_symptom_and_contact_success] computes
    on finite tables: 0 when no mass is left at the delays from 0 on
    (every frequency is then NaN and [Series.sum] skips them all), and
    otherwise the tail probability of the renormalised table. *)
Definition conditional_impact (s2t si c : pmf) : Qc :=
  let z := zero_negative s2t in
  if Qc_eq_dec (total z) 0 then 0%Qc
  else tail_probability_positive (time_to_tertiary (scale (total z) z) si) c.

(** The mass of a table at the delays from 0 on. *)
Definition mass_from_zero (s2t : pmf) : Qc :=
  exact.mass (fun d => (0 <=? d)%Z) (axis s2t) (freq s2t).

(** The record of [TT_model_rum] in exact arithmetic, from the six
    parameters and the three probabilities read off the tables. *)
Definition exact_record (sar sr pn ct cnt cc asi aci cond : Qc) : dict :=
  let adh := (sr * sar * ct + (1 - sar) * sr * cnt)%Qc in
  let sis := (asi * adh)%Qc in
  let cis := (sr * sar * pn * cc * aci)%Qc in
  let sacs := (sis * sr * sar * pn * cc * cond)%Qc in
  [ ("primary_tested", Fin (sr * sar));
    ("adherence_symptom_isolation", Fin adh);
    ("adherence_symptom_isolation_impact", Fin asi);
    ("symptom_isolation_success", Fin sis);
    ("proportion_contacts_reached", Fin (sr * sar * pn));
    ("proportion_contacts_reached_compliant", Fin (sr * sar * pn * cc));
    ("adherence_contact_isolation_impact", Fin aci);
    ("contact_isolation_success", Fin cis);
    ("transmission_pre_contact", Fin (1 - aci));
    ("transmission_occuring_pre_symptom", Fin (1 - asi));
    ("transmission_averted", Fin (sis + cis - sacs));
    ("marginal_impact", Fin (sis + cis - sacs - sis));
    ("symptom_and_contact_success", Fin sacs) ]%string%Qc.


(** The four frames handed to [TT_model_rum] have the same, positive,
    number of rows: they are defined on one delay axis. *)
Definition aligned (serial_interval secondary_symptoms_to_tertiary
                    time_to_tertiary_infection total_time_to_contact : DataFrame) : Prop :=
  length serial_interval = length secondary_symptoms_to_tertiary /\
  length time_to_tertiary_infection = length secondary_symptoms_to_tertiary /\
  length total_time_to_contact = length secondary_symptoms_to_tertiary /\
  (0 < length secondary_symptoms_to_tertiary)%nat.

(** ** Small tables on the axis -1, 0, 1 *)

Module ex.

Definition on_axis (f : list Z) : pmf :=
  combine [-1; 0; 1]%Z (map (fun n => Q2Qc (inject_Z n)) f).

(** All the mass at delay -1, 0 and 1. *)
Definition before : pmf := on_axis [1; 0; 0]%Z.
Definition now : pmf := on_axis [0; 1; 0]%Z.
Definition after : pmf := on_axis [0; 0; 1]%Z.

Definition half : float64 := Fin (dec 1 2).

(** A raw table of four intervals, "(0, 2]", "(1, 3]", "(2, 4]" and
    "(3, 5]", whose midpoints are 1, 2, 3 and 4. *)
Definition e2e : list ((Qc * Qc) * float64) :=
  map (fun lo => ((Q2Qc (inject_Z lo), Q2Qc (inject_Z (lo + 2))), Fin (dec 1 4)))
      [0; 1; 2; 3]%Z.

(** A spline and a density that are constant. *)
Definition flat_spline (x : list Qc) (y : list float64) (t : Qc) : float64 := 1%f.
Definition flat_pdf (x a : Qc) : float64 := 1%f.

End ex.

(** ** Tables on the symmetric axis *)

(** The hourly axis from [-B] to [B]. *)
Definition symmetric_axis (B : nat) : list Z :=
  np.arange (- Z.of_nat B) (Z.of_nat B + 1).

(** The entry of a frequency column at delay [d], on the axis from [-B]
    to [B]. *)
Definition at_delay (B : nat) (f : list Qc) (d : Z) : Qc :=
  nth (Z.to_nat (d + Z.of_nat B)) f 0%Qc.

(** The mass of the pairs of delays [(x, y)] of the axis that satisfy
    [keep], for two independent delays with the columns [a] and [b]. *)
Definition pair_mass (B : nat) (a b : list Qc) (keep : Z -> Z -> bool) : Qc :=
  exact.sum
    (map (fun x =>
            exact.sum
              (map (fun y => if keep x y
                             then (at_delay B a x * at_delay B b y)%Qc
                             else 0%Qc)
                   (symmetric_axis B)))
         (symmetric_axis B)).

(** ** Merging onto an axis *)

(** The frequency that the left merge followed by [fillna(0)] gives at
    delay [d] when [df] has at most one row per delay. *)
Definition frequency_at (df : DataFrame) (d : Z) : float64 :=
  match find (fun r => (delay r =? d)%Z) df with
  | Some r => pd.fillna0 (frequency r)
  | None => 0%f
  end.

(** The frame with the delay column [ax] and the frequencies of [df]. *)
Definition on_axis (ax : list Z) (df : DataFrame) : DataFrame :=
  map (fun d => {| delay := d; frequency := frequency_at df d |}) ax.

(** The frequency of a finite table at delay [d], 0 where it has no row. *)
Definition lookup_frequency (p : pmf) (d : Z) : Qc :=
  match find (fun r => (fst r =? d)%Z) p with
  | Some r => snd r
  | None => 0%Qc
  end.

(** The finite table [p] on the axis [ax]. *)
Definition pmf_on_axis (ax : list Z) (p : pmf) : pmf :=
  map (fun d => (d, lookup_frequency p d)) ax.

(** What [get_serial_interval] and [get_incubation_period] return: a frame
    on the hours from [-delay_bound] to [delay_bound], zero outside of the
    hours 0 to 960, without any NaN. *)
Definition padded_gamma_table (delay_bound : Z) (returned : result DataFrame) : Prop :=
  exists df,
    returned = Ok df /\
    pd.col_delay df = np.arange (- delay_bound) (delay_bound + 1) /\
    (forall r, In r df -> (delay r < 0 \/ 40 * 24 < delay r)%Z -> frequency r = 0%f) /\
    (forall r, In r df -> frequency r <> NaN).

(** ** Splitting a table at delay 0 *)



(** * Properties *)

(** ** Numbers *)

Lemma Qc_this_eq (a b : Qc) : a = b -> (this a == this b)%Q.
Proof. now intros ->. Qed.

(** Goals on [Qc] are moved to [Q], where [lra] and [nra] apply. *)
Ltac qc_to_q :=
  try apply Qc_is_canon;
  repeat match goal with
         | H : @eq Qc _ _ |- _ => apply Qc_this_eq in H
         | H : ~ @eq Qc _ _ |- _ =>
             let H' := fresh in
             assert (H' := fun e => H (Qc_is_canon _ _ e)); clear H
         end;
  unfold Qcle, Qclt, Qcminus, Qcdiv in *;
  cbn [this Qcplus Qcmult Qcopp Q2Qc] in *;
  rewrite ?Qred_correct in *.

Lemma float64_eqb_eq (x y : float64) : float64_eqb x y = true <-> x = y.
Proof.
  destruct x, y; simpl; split; intros H; try discriminate; try reflexivity.
  - f_equal. now apply Qc_eq_bool_correct.
  - injection H as ->. unfold Qc_eq_bool. now destruct (Qc_eq_dec q0 q0).
Qed.

Lemma fadd_NaN_r (x : float64) : (x + NaN)%f = NaN.
Proof. now destruct x. Qed.

Lemma fmul_NaN_r (x : float64) : (x * NaN)%f = NaN.
Proof. now destruct x. Qed.

Lemma fold_fadd_NaN (l : list float64) : fold_left fadd l NaN = NaN.
Proof. induction l; simpl; auto. Qed.

Lemma np_sum_NaN (l : list float64) : In NaN l -> np.sum l = NaN.
Proof.
  unfold np.sum. generalize 0%f.
  induction l as [|x l IH]; intros acc [].
  - subst. simpl. rewrite fadd_NaN_r. apply fold_fadd_NaN.
  - simpl. now apply IH.
Qed.

Lemma fold_fadd_Fin (l : list Qc) (acc : Qc) :
  fold_left fadd (map Fin l) (Fin acc) = Fin (acc + exact.sum l).
Proof.
  revert acc. induction l as [|x l IH]; intros acc; simpl.
  - f_equal. ring.
  - rewrite IH. f_equal. ring.
Qed.

Lemma np_sum_Fin (l : list Qc) : np.sum (map Fin l) = Fin (exact.sum l).
Proof. unfold np.sum. rewrite fold_fadd_Fin. f_equal. ring. Qed.

Lemma filter_Fin (l : list Qc) :
  filter (fun x => negb (is_nan x)) (map Fin l) = map Fin l.
Proof. induction l; simpl; congruence. Qed.

Lemma pd_sum_Fin (l : list Qc) : pd.sum (map Fin l) = Fin (exact.sum l).
Proof. unfold pd.sum. rewrite filter_Fin. apply np_sum_Fin. Qed.

Lemma nth_Fin (l : list Qc) (i : nat) : nth i (map Fin l) 0%f = Fin (nth i l 0%Qc).
Proof. apply (map_nth Fin). Qed.

Lemma convolve_at_Fin (a v : list Qc) (m : nat) :
  np.convolve_at (map Fin a) (map Fin v) m = Fin (exact.convolve_at a v m).
Proof.
  unfold np.convolve_at, exact.convolve_at. rewrite !length_map.
  rewrite <- np_sum_Fin, map_map. f_equal.
  apply map_ext. intros i. now rewrite !nth_Fin.
Qed.

Lemma convolve_same_Fin (a v : list Qc) :
  (length v <= length a)%nat -> v <> [] ->
  np.convolve_same (map Fin a) (map Fin v) = Ok (map Fin (exact.convolve_same a v)).
Proof.
  intros Hle Hv. unfold np.convolve_same, exact.convolve_same.
  rewrite !length_map.
  destruct (Nat.ltb_spec (length a) (length v)) as [|_]; [lia|].
  rewrite !length_map.
  assert (0 < length v)%nat by (destruct v; simpl; [congruence|lia]).
  destruct (Nat.eqb_spec (length a) 0); [lia|].
  destruct (Nat.eqb_spec (length v) 0); [lia|].
  f_equal. rewrite map_map. apply map_ext. intros k. apply convolve_at_Fin.
Qed.

(** The example of the numpy manual:
    [np.convolve([1, 2, 3], [0, 1, 0.5], 'same')] is [[1, 2.5, 4]]. *)
Example convolve_same_manual :
  np.convolve_same (map Fin [dec 1 1; dec 2 1; dec 3 1]) (map Fin [dec 0 1; dec 1 1; dec 1 2])
  = Ok (map Fin (exact.convolve_same [dec 1 1; dec 2 1; dec 3 1] [dec 0 1; dec 1 1; dec 1 2]))
  /\ map this (exact.convolve_same [dec 1 1; dec 2 1; dec 3 1] [dec 0 1; dec 1 1; dec 1 2])
     = [1; 5 # 2; 4]%Q.
Proof.
  split.
  - apply convolve_same_Fin; [simpl; lia | discriminate].
  - vm_compute. reflexivity.
Qed.

(** ** Frames with finite entries *)

Lemma col_frequency_to_frame (p : pmf) :
  pd.col_frequency (to_frame p) = map Fin (freq p).
Proof. unfold pd.col_frequency, to_frame, freq. now rewrite !map_map. Qed.

Lemma col_delay_to_frame (p : pmf) : pd.col_delay (to_frame p) = axis p.
Proof. unfold pd.col_delay, to_frame, axis. now rewrite map_map. Qed.

Lemma combine_axis_freq (p : pmf) : combine (axis p) (freq p) = p.
Proof. induction p as [|[d f] p IH]; simpl; congruence. Qed.

Lemma axis_combine (ds : list Z) (fs : list Qc) :
  length ds = length fs -> axis (combine ds fs) = ds.
Proof.
  revert fs. induction ds as [|d ds IH]; intros [|f fs] H; simpl in *;
    try discriminate; auto.
  f_equal. apply IH. lia.
Qed.

Lemma freq_combine (ds : list Z) (fs : list Qc) :
  length ds = length fs -> freq (combine ds fs) = fs.
Proof.
  revert fs. induction ds as [|d ds IH]; intros [|f fs] H; simpl in *;
    try discriminate; auto.
  f_equal. apply IH. lia.
Qed.

Lemma length_axis (p : pmf) : length (axis p) = length p.
Proof. apply length_map. Qed.

Lemma length_freq (p : pmf) : length (freq p) = length p.
Proof. apply length_map. Qed.

Lemma length_convolve_same (a v : list Qc) :
  length (exact.convolve_same a v) = length a.
Proof. unfold exact.convolve_same. now rewrite length_map, length_seq. Qed.

Lemma DataFrame_of_Fin (ds : list Z) (fs : list Qc) :
  length ds = length fs ->
  pd.DataFrame_of ds (map Fin fs) = Ok (to_frame (combine ds fs)).
Proof.
  intros H. unfold pd.DataFrame_of. rewrite length_map, H, Nat.eqb_refl.
  f_equal. clear H. revert fs.
  induction ds as [|d ds IH]; intros [|f fs]; simpl; auto.
  now rewrite IH.
Qed.

Lemma select_to_frame (keep : Z -> bool) (p : pmf) :
  pd.select (fun r => keep (delay r)) (to_frame p)
  = to_frame (filter (fun r => keep (fst r)) p).
Proof.
  unfold pd.select. induction p as [|[d f] p IH]; simpl; auto.
  destruct (keep d); simpl; now rewrite IH.
Qed.

Lemma mass_filter (keep : Z -> bool) (p : pmf) :
  exact.mass keep (axis p) (freq p) = total (filter (fun r => keep (fst r)) p).
Proof.
  unfold exact.mass, total. rewrite combine_axis_freq.
  induction p as [|[d f] p IH]; simpl; auto.
  destruct (keep d); simpl; rewrite IH; ring.
Qed.

Lemma pd_sum_select (keep : Z -> bool) (p : pmf) :
  pd.sum (pd.col_frequency (pd.select (fun r => keep (delay r)) (to_frame p)))
  = Fin (exact.mass keep (axis p) (freq p)).
Proof.
  now rewrite select_to_frame, col_frequency_to_frame, pd_sum_Fin, mass_filter.
Qed.

Lemma get_time_to_tertiary_infection_Fin (s si : pmf) :
  (length si <= length s)%nat -> si <> [] ->
  parameters.get_time_to_tertiary_infection (to_frame s) (to_frame si)
  = Ok (to_frame (time_to_tertiary s si)).
Proof.
  intros Hle Hne. unfold parameters.get_time_to_tertiary_infection.
  rewrite !col_frequency_to_frame, col_delay_to_frame.
  rewrite convolve_same_Fin.
  - simpl. apply DataFrame_of_Fin.
    now rewrite length_convolve_same, length_axis, length_freq.
  - now rewrite !length_freq.
  - destruct si; simpl; congruence.
Qed.

Lemma get_contact_isolation_impact_Fin (t c : pmf) :
  (length c <= length t)%nat -> c <> [] ->
  parameters.get_contact_isolation_impact (to_frame t) (to_frame c)
  = Ok (Fin (tail_probability_positive t c)).
Proof.
  intros Hle Hne. unfold parameters.get_contact_isolation_impact.
  rewrite !col_frequency_to_frame, col_delay_to_frame, <- map_rev.
  rewrite convolve_same_Fin.
  - simpl. rewrite DataFrame_of_Fin
      by now rewrite length_convolve_same, length_axis, length_freq.
    simpl. rewrite (pd_sum_select (fun d => (0 <? d)%Z)).
    unfold tail_probability_positive.
    rewrite axis_combine, freq_combine;
      try now rewrite length_convolve_same, length_axis, length_freq.
    reflexivity.
  - now rewrite length_rev, !length_freq.
  - intros H. apply (f_equal (@length _)) in H.
    rewrite length_rev, length_freq in H. destruct c; simpl in *; congruence.
Qed.

(** ** When the functions return *)

Lemma convolve_same_returns (a v : list float64) :
  (length v <= length a)%nat -> (0 < length v)%nat ->
  exists out, np.convolve_same a v = Ok out /\ length out = length a.
Proof.
  intros Hle Hv. unfold np.convolve_same.
  destruct (Nat.ltb_spec (length a) (length v)) as [|_]; [lia|].
  destruct (Nat.eqb_spec (length a) 0); [lia|].
  destruct (Nat.eqb_spec (length v) 0); [lia|].
  eexists. split; [reflexivity|]. now rewrite length_map, length_seq.
Qed.

Lemma DataFrame_of_returns (d : list Z) (f : list float64) :
  length d = length f ->
  exists df, pd.DataFrame_of d f = Ok df /\ length df = length d.
Proof.
  intros H. unfold pd.DataFrame_of. rewrite H, Nat.eqb_refl.
  eexists. split; [reflexivity|].
  rewrite length_map, length_combine. lia.
Qed.

Lemma length_col_frequency (df : DataFrame) :
  length (pd.col_frequency df) = length df.
Proof. apply length_map. Qed.

Lemma length_col_delay (df : DataFrame) : length (pd.col_delay df) = length df.
Proof. apply length_map. Qed.

Lemma get_time_to_tertiary_infection_returns (s si : DataFrame) :
  (length si <= length s)%nat -> (0 < length si)%nat ->
  exists df, parameters.get_time_to_tertiary_infection s si = Ok df /\
             length df = length s.
Proof.
  intros Hle Hpos. unfold parameters.get_time_to_tertiary_infection.
  destruct (@convolve_same_returns (pd.col_frequency s) (pd.col_frequency si))
    as (out & -> & Hout); rewrite ?length_col_frequency in *; auto.
  simpl.
  destruct (@DataFrame_of_returns (pd.col_delay s) out) as (df & -> & Hdf).
  - now rewrite Hout, length_col_delay.
  - exists df. split; auto. now rewrite length_col_delay in Hdf.
Qed.

Lemma get_contact_isolation_impact_returns (t c : DataFrame) :
  (length c <= length t)%nat -> (0 < length c)%nat ->
  exists prob, parameters.get_contact_isolation_impact t c = Ok prob.
Proof.
  intros Hle Hpos. unfold parameters.get_contact_isolation_impact.
  destruct (@convolve_same_returns (pd.col_frequency t) (rev (pd.col_frequency c)))
    as (out & -> & Hout); rewrite ?length_rev, ?length_col_frequency in *; auto.
  simpl.
  destruct (@DataFrame_of_returns (pd.col_delay t) out) as (df & -> & Hdf).
  - now rewrite Hout, length_col_delay.
  - simpl. eauto.
Qed.

Lemma length_enforce_positive (s : DataFrame) :
  length (parameters.enforce_positive s) = length s.
Proof.
  unfold parameters.enforce_positive, pd.div_frequency, pd.loc_set_frequency.
  now rewrite !length_map.
Qed.

Lemma get_symptom_and_contact_success_returns
      (sis sr sar cc pn : float64) (s2t si c : DataFrame) :
  (length si <= length s2t)%nat -> (0 < length si)%nat ->
  (length c <= length s2t)%nat -> (0 < length c)%nat ->
  exists t cond,
    parameters.get_time_to_tertiary_infection (parameters.enforce_positive s2t) si = Ok t /\
    parameters.get_contact_isolation_impact t c = Ok cond /\
    parameters.get_symptom_and_contact_success sis sr sar cc pn s2t si c
    = Ok (sis * sr * sar * pn * cc * cond)%f.
Proof.
  intros H1 H2 H3 H4. unfold parameters.get_symptom_and_contact_success.
  destruct (@get_time_to_tertiary_infection_returns (parameters.enforce_positive s2t) si)
    as (t & Ht & Hlen); rewrite ?length_enforce_positive; auto.
  rewrite length_enforce_positive in Hlen.
  destruct (@get_contact_isolation_impact_returns t c) as (cond & Hc);
    rewrite ?Hlen; auto.
  exists t, cond. rewrite Ht. simpl. rewrite Hc. simpl. auto.
Qed.

(** The record that [TT_model_rum] returns on aligned frames, with the two
    values that come from [parameters]. *)
Lemma TT_model_rum_returns (sar sr pn ct cnt cc : float64) (si s2t t3 c : DataFrame) :
  aligned si s2t t3 c ->
  exists impact sacs r,
    parameters.get_contact_isolation_impact t3 c = Ok impact /\
    parameters.get_symptom_and_contact_success
      (pd.sum (pd.col_frequency (pd.select (fun r => (0 <=? delay r)%Z) s2t)) *
       (sr * sar * ct + (1 - sar) * sr * cnt))%f sr sar cc pn s2t si c = Ok sacs /\
    model.TT_model_rum sar sr pn ct cnt cc si s2t t3 c = Ok r /\
    let adh := (sr * sar * ct + (1 - sar) * sr * cnt)%f in
    let adh_impact := pd.sum (pd.col_frequency (pd.select (fun r => (0 <=? delay r)%Z) s2t)) in
    let sis := (adh_impact * adh)%f in
    let cis := (sr * sar * pn * cc * impact)%f in
    r = [ ("primary_tested", sr * sar);
          ("adherence_symptom_isolation", adh);
          ("adherence_symptom_isolation_impact", adh_impact);
          ("symptom_isolation_success", sis);
          ("proportion_contacts_reached", sr * sar * pn);
          ("proportion_contacts_reached_compliant", sr * sar * pn * cc);
          ("adherence_contact_isolation_impact", impact);
          ("contact_isolation_success", cis);
          ("transmission_pre_contact", 1 - impact);
          ("transmission_occuring_pre_symptom", 1 - adh_impact);
          ("transmission_averted", sis + cis - sacs);
          ("marginal_impact", sis + cis - sacs - sis);
          ("symptom_and_contact_success", sacs) ]%string%f.
Proof.
  intros (H1 & H2 & H3 & H4).
  destruct (@get_contact_isolation_impact_returns t3 c) as (impact & Hi); try lia.
  destruct (@get_symptom_and_contact_success_returns
              (pd.sum (pd.col_frequency (pd.select (fun r => (0 <=? delay r)%Z) s2t)) *
               (sr * sar * ct + (1 - sar) * sr * cnt))%f sr sar cc pn s2t si c)
    as (t & cond & _ & _ & Hs); try lia.
  eexists impact, _, _. split; [exact Hi|]. split; [exact Hs|].
  unfold model.TT_model_rum. rewrite Hi. cbn [bind]. rewrite Hs. cbn [bind].
  split; reflexivity.
Qed.

(** ** The result record *)

Lemma aligned_ex : aligned (to_frame ex.now) (to_frame ex.after)
                           (to_frame ex.before) (to_frame ex.now).
Proof. repeat split; simpl; lia. Qed.

(** C1: on aligned frames [TT_model_rum] returns a record whose entry
    [transmission_averted] is [symptom_isolation_success +
    contact_isolation_success - symptom_and_contact_success] and whose
    entry [marginal_impact] is [transmission_averted -
    symptom_isolation_success], all read from that record. *)
Theorem TT_model_rum_inclusion_exclusion
        (sar sr pn ct cnt cc : float64) (si s2t t3 c : DataFrame) :
  aligned si s2t t3 c ->
  exists r sis cis sacs ta mi,
    model.TT_model_rum sar sr pn ct cnt cc si s2t t3 c = Ok r /\
    dict_get r "symptom_isolation_success" = Some sis /\
    dict_get r "contact_isolation_success" = Some cis /\
    dict_get r "symptom_and_contact_success" = Some sacs /\
    dict_get r "transmission_averted" = Some ta /\
    dict_get r "marginal_impact" = Some mi /\
    ta = (sis + cis - sacs)%f /\
    mi = (ta - sis)%f.
Proof.
  intros H.
  destruct (TT_model_rum_returns sar sr pn ct cnt cc H)
    as (impact & sacs & r & _ & _ & Hr & ->).
  do 6 eexists. split; [exact Hr|].
  repeat split; reflexivity.
Qed.

Lemma TT_model_rum_inclusion_exclusion_witness :
  exists r sis cis sacs ta mi,
    model.TT_model_rum ex.half ex.half ex.half ex.half ex.half ex.half
                       (to_frame ex.now) (to_frame ex.after)
                       (to_frame ex.before) (to_frame ex.now) = Ok r /\
    dict_get r "symptom_isolation_success" = Some sis /\
    dict_get r "contact_isolation_success" = Some cis /\
    dict_get r "symptom_and_contact_success" = Some sacs /\
    dict_get r "transmission_averted" = Some ta /\
    dict_get r "marginal_impact" = Some mi /\
    ta = (sis + cis - sacs)%f /\
    mi = (ta - sis)%f.
Proof.
  apply TT_model_rum_inclusion_exclusion.
  repeat split; simpl; lia.
Defined.

(** C10: on aligned frames the record satisfies [transmission_pre_contact
    = 1 - adherence_contact_isolation_impact] and
    [transmission_occuring_pre_symptom = 1 -
    adherence_symptom_isolation_impact], on its own entries. *)
Theorem TT_model_rum_complements
        (sar sr pn ct cnt cc : float64) (si s2t t3 c : DataFrame) :
  aligned si s2t t3 c ->
  exists r aci asi tpc tps,
    model.TT_model_rum sar sr pn ct cnt cc si s2t t3 c = Ok r /\
    dict_get r "adherence_contact_isolation_impact" = Some aci /\
    dict_get r "adherence_symptom_isolation_impact" = Some asi /\
    dict_get r "transmission_pre_contact" = Some tpc /\
    dict_get r "transmission_occuring_pre_symptom" = Some tps /\
    tpc = (1 - aci)%f /\
    tps = (1 - asi)%f.
Proof.
  intros H.
  destruct (TT_model_rum_returns sar sr pn ct cnt cc H)
    as (impact & sacs & r & _ & _ & Hr & ->).
  do 5 eexists. split; [exact Hr|].
  repeat split; reflexivity.
Qed.

Lemma TT_model_rum_complements_witness :
  exists r aci asi tpc tps,
    model.TT_model_rum ex.half ex.half ex.half ex.half ex.half ex.half
                       (to_frame ex.now) (to_frame ex.after)
                       (to_frame ex.before) (to_frame ex.now) = Ok r /\
    dict_get r "adherence_contact_isolation_impact" = Some aci /\
    dict_get r "adherence_symptom_isolation_impact" = Some asi /\
    dict_get r "transmission_pre_contact" = Some tpc /\
    dict_get r "transmission_occuring_pre_symptom" = Some tps /\
    tpc = (1 - aci)%f /\
    tps = (1 - asi)%f.
Proof.
  apply TT_model_rum_complements.
  repeat split; simpl; lia.
Defined.



(** C8, as amended: the record has thirteen entries, and its keys are the
    thirteen metric names that the interface lists, in this order. *)
Theorem TT_model_rum_keys
        (sar sr pn ct cnt cc : float64) (si s2t t3 c : DataFrame) :
  aligned si s2t t3 c ->
  exists r,
    model.TT_model_rum sar sr pn ct cnt cc si s2t t3 c = Ok r /\
    length r = 13%nat /\
    dict_keys r =
    [ "primary_tested"; "adherence_symptom_isolation";
      "adherence_symptom_isolation_impact"; "symptom_isolation_success";
      "proportion_contacts_reached"; "proportion_contacts_reached_compliant";
      "adherence_contact_isolation_impact"; "contact_isolation_success";
      "transmission_pre_contact"; "transmission_occuring_pre_symptom";
      "transmission_averted"; "marginal_impact";
      "symptom_and_contact_success" ]%string.
Proof.
  intros H.
  destruct (TT_model_rum_returns sar sr pn ct cnt cc H)
    as (impact & sacs & r & _ & _ & Hr & ->).
  eexists. split; [exact Hr|]. split; reflexivity.
Qed.

Lemma TT_model_rum_keys_witness :
  exists r,
    model.TT_model_rum ex.half ex.half ex.half ex.half ex.half ex.half
                       (to_frame ex.now) (to_frame ex.after)
                       (to_frame ex.before) (to_frame ex.now) = Ok r /\
    length r = 13%nat /\
    dict_keys r =
    [ "primary_tested"; "adherence_symptom_isolation";
      "adherence_symptom_isolation_impact"; "symptom_isolation_success";
      "proportion_contacts_reached"; "proportion_contacts_reached_compliant";
      "adherence_contact_isolation_impact"; "contact_isolation_success";
      "transmission_pre_contact"; "transmission_occuring_pre_symptom";
      "transmission_averted"; "marginal_impact";
      "symptom_and_contact_success" ]%string.
Proof.
  apply TT_model_rum_keys.
  repeat split; simpl; lia.
Defined.

(** C8 as stated fails: on a valid input the record does not have twelve
    entries. *)
Lemma TT_model_rum_not_twelve :
  exists r,
    model.TT_model_rum ex.half ex.half ex.half ex.half ex.half ex.half
                       (to_frame ex.now) (to_frame ex.after)
                       (to_frame ex.before) (to_frame ex.now) = Ok r /\
    length (dict_keys r) <> 12%nat.
Proof.
  destruct (TT_model_rum_returns ex.half ex.half ex.half ex.half ex.half ex.half
                                 aligned_ex)
    as (impact & sacs & r & _ & _ & Hr & ->).
  eexists. split; [exact Hr|]. simpl. lia.
Qed.

(** ** The tail probability *)

Lemma mass_split (ds : list Z) (fs : list Qc) :
  (exact.mass (fun d => (0 <=? d)%Z) ds fs
   = exact.mass (fun d => (0 <? d)%Z) ds fs + exact.mass (fun d => (d =? 0)%Z) ds fs)%Qc.
Proof.
  unfold exact.mass. induction (combine ds fs) as [|[d f] l IH]; simpl.
  - ring.
  - rewrite IH.
    destruct (Z.leb_spec 0 d), (Z.ltb_spec 0 d), (Z.eqb_spec d 0); try lia; ring.
Qed.

(** C6: on two finite tables on one delay axis
    [get_contact_isolation_impact] returns the mass, over the delays
    strictly above 0, of the 'same'-mode convolution of the first
    frequency column with the reversal of the second one; this is the mass
    over the delays from 0 on without the mass at delay 0. *)
Theorem get_contact_isolation_impact_tail (a b : pmf) :
  axis a = axis b -> a <> [] ->
  parameters.get_contact_isolation_impact (to_frame a) (to_frame b)
  = Ok (Fin (tail_probability_positive a b)) /\
  let diff := exact.convolve_same (freq a) (rev (freq b)) in
  (tail_probability_positive a b
   = exact.mass (fun d => (0 <=? d)%Z) (axis a) diff
     - exact.mass (fun d => (d =? 0)%Z) (axis a) diff)%Qc.
Proof.
  intros Hax Hne. split.
  - apply get_contact_isolation_impact_Fin.
    + rewrite <- (length_axis b), <- Hax, length_axis. lia.
    + intros ->. destruct a; [congruence|discriminate].
  - cbv zeta. rewrite mass_split. unfold tail_probability_positive. ring.
Qed.

Lemma get_contact_isolation_impact_tail_witness :
  parameters.get_contact_isolation_impact (to_frame ex.after) (to_frame ex.now)
  = Ok (Fin (tail_probability_positive ex.after ex.now)) /\
  let diff := exact.convolve_same (freq ex.after) (rev (freq ex.now)) in
  (tail_probability_positive ex.after ex.now
   = exact.mass (fun d => (0 <=? d)%Z) (axis ex.after) diff
     - exact.mass (fun d => (d =? 0)%Z) (axis ex.after) diff)%Qc.
Proof.
  apply get_contact_isolation_impact_tail.
  - reflexivity.
  - discriminate.
Defined.

(** ** Conditioning on successful symptom isolation *)

Lemma loc_set_zero_negative (s : pmf) :
  pd.loc_set_frequency (fun r => (delay r <? 0)%Z) 0%f (to_frame s)
  = to_frame (zero_negative s).
Proof.
  unfold pd.loc_set_frequency, to_frame, zero_negative. rewrite !map_map.
  apply map_ext. intros [d f]. simpl. now destruct (d <? 0)%Z.
Qed.

Lemma enforce_positive_to_frame (s : pmf) :
  parameters.enforce_positive (to_frame s)
  = pd.div_frequency (to_frame (zero_negative s)) (Fin (total (zero_negative s))).
Proof.
  unfold parameters.enforce_positive.
  now rewrite loc_set_zero_negative, col_frequency_to_frame, pd_sum_Fin.
Qed.

Lemma div_frequency_nonzero (z : pmf) (p : Qc) :
  p <> 0%Qc -> pd.div_frequency (to_frame z) (Fin p) = to_frame (scale p z).
Proof.
  intros Hp. unfold pd.div_frequency, to_frame, scale. rewrite !map_map.
  apply map_ext. intros [d f]. simpl. now destruct (Qc_eq_dec p 0).
Qed.

Lemma sum_cons (x : Qc) (l : list Qc) : exact.sum (x :: l) = (x + exact.sum l)%Qc.
Proof. reflexivity. Qed.

Lemma sum_nonneg (l : list Qc) :
  Forall (fun x => (0 <= x)%Qc) l -> (0 <= exact.sum l)%Qc.
Proof.
  induction 1 as [|x l Hx _ IH].
  - apply Qcle_refl.
  - rewrite sum_cons. qc_to_q. lra.
Qed.

Lemma nonneg_freq (z : pmf) : nonneg z -> Forall (fun x => (0 <= x)%Qc) (freq z).
Proof. intros H. apply Forall_map. exact H. Qed.

Lemma nonneg_total_zero (z : pmf) :
  nonneg z -> total z = 0%Qc -> Forall (fun r => snd r = 0%Qc) z.
Proof.
  unfold total. induction 1 as [|[d f] z Hf Hz IH]; intros Hsum; constructor.
  - apply nonneg_freq, sum_nonneg in Hz.
    unfold freq in *. cbn [map snd] in *. rewrite sum_cons in Hsum.
    qc_to_q. lra.
  - apply IH. apply nonneg_freq, sum_nonneg in Hz.
    unfold freq in *. cbn [map snd] in *. rewrite sum_cons in Hsum.
    qc_to_q. lra.
Qed.

Lemma nonneg_zero_negative (s : pmf) : nonneg s -> nonneg (zero_negative s).
Proof.
  unfold nonneg, zero_negative. intros H. apply Forall_map.
  eapply Forall_impl; [|exact H]. intros [d f] Hf. simpl in *.
  destruct (d <? 0)%Z; auto. apply Qcle_refl.
Qed.

Lemma div_frequency_zero (z : pmf) :
  Forall (fun r => snd r = 0%Qc) z ->
  Forall (eq NaN) (pd.col_frequency (pd.div_frequency (to_frame z) 0%f)).
Proof.
  unfold pd.col_frequency, pd.div_frequency, to_frame. rewrite !map_map.
  intros H. apply Forall_map. eapply Forall_impl; [|exact H].
  intros [d f] Hf. simpl in *. subst f. reflexivity.
Qed.

Lemma pd_sum_all_NaN (l : list float64) : Forall (eq NaN) l -> pd.sum l = 0%f.
Proof.
  unfold pd.sum. induction 1 as [|x l Hx _ IH]; simpl; auto.
  subst x. simpl. exact IH.
Qed.

Lemma convolve_at_NaN (a v : list float64) (m : nat) :
  Forall (eq NaN) a ->
  (exists i, i < length a /\ i <= m /\ m - i < length v)%nat ->
  np.convolve_at a v m = NaN.
Proof.
  intros Ha (i & Hi & Him & Hiv). unfold np.convolve_at.
  apply np_sum_NaN. apply in_map_iff. exists i. split.
  - rewrite Forall_forall in Ha. rewrite <- (Ha (nth i a 0%f)); auto.
    now apply nth_In.
  - apply filter_In. split.
    + apply in_seq. lia.
    + apply andb_true_iff. split; [apply Nat.leb_le | apply Nat.ltb_lt]; lia.
Qed.

Lemma convolve_same_NaN (a v : list float64) :
  Forall (eq NaN) a -> (length v <= length a)%nat -> (0 < length v)%nat ->
  exists out, np.convolve_same a v = Ok out /\ length out = length a /\
              Forall (eq NaN) out.
Proof.
  intros Ha Hle Hv. unfold np.convolve_same.
  destruct (Nat.ltb_spec (length a) (length v)) as [|_]; [lia|].
  destruct (Nat.eqb_spec (length a) 0); [lia|].
  destruct (Nat.eqb_spec (length v) 0); [lia|].
  eexists. split; [reflexivity|]. split.
  - now rewrite length_map, length_seq.
  - apply Forall_map, Forall_forall. intros k Hk. apply in_seq in Hk.
    symmetry. apply convolve_at_NaN; auto.
    assert ((length v - 1) / 2 <= length v - 1)%nat
      by (apply Nat.Div0.div_le_upper_bound; lia).
    exists (k + (length v - 1) / 2 - Nat.min (k + (length v - 1) / 2) (length v - 1))%nat.
    lia.
Qed.

Lemma DataFrame_of_columns (d : list Z) (f : list float64) (df : DataFrame) :
  pd.DataFrame_of d f = Ok df -> pd.col_delay df = d /\ pd.col_frequency df = f.
Proof.
  unfold pd.DataFrame_of. destruct (Nat.eqb_spec (length d) (length f)) as [H|];
    [|discriminate].
  intros [= <-]. unfold pd.col_delay, pd.col_frequency. rewrite !map_map. simpl.
  clear -H. revert f H.
  induction d as [|x d IH]; intros [|y f] H; simpl in *; try discriminate; auto.
  destruct (IH f) as [-> ->]; auto.
Qed.

Lemma select_all_NaN (mask : row -> bool) (df : DataFrame) :
  Forall (eq NaN) (pd.col_frequency df) ->
  Forall (eq NaN) (pd.col_frequency (pd.select mask df)).
Proof.
  unfold pd.col_frequency, pd.select. rewrite !Forall_map, !Forall_forall.
  intros H r Hr. apply filter_In in Hr. now apply H.
Qed.

(** A frame without any number in it yields the conditional impact 0:
    the NaN entries spread through both convolutions and [Series.sum]
    skips every one of them. *)
Lemma conditional_impact_all_NaN (s si c : DataFrame) :
  Forall (eq NaN) (pd.col_frequency s) ->
  (length si <= length s)%nat -> (0 < length si)%nat ->
  (length c <= length s)%nat -> (0 < length c)%nat ->
  exists t, parameters.get_time_to_tertiary_infection s si = Ok t /\
            parameters.get_contact_isolation_impact t c = Ok 0%f.
Proof.
  intros Hs H1 H2 H3 H4.
  unfold parameters.get_time_to_tertiary_infection.
  destruct (@convolve_same_NaN (pd.col_frequency s) (pd.col_frequency si))
    as (out & -> & Hlen & Hout); rewrite ?length_col_frequency in *; auto.
  simpl.
  destruct (@DataFrame_of_returns (pd.col_delay s) out) as (t & Ht & Hlt).
  { now rewrite Hlen, length_col_delay. }
  rewrite length_col_delay in Hlt.
  exists t. split; [exact Ht|].
  apply DataFrame_of_columns in Ht. destruct Ht as [Htd Htf].
  unfold parameters.get_contact_isolation_impact. rewrite Htf.
  destruct (@convolve_same_NaN out (rev (pd.col_frequency c)))
    as (out' & -> & Hlen' & Hout');
    rewrite ?length_rev, ?length_col_frequency in *; auto; try lia.
  simpl.
  destruct (@DataFrame_of_returns (pd.col_delay t) out') as (dd & Hdd & _).
  { rewrite Hlen', length_col_delay. lia. }
  rewrite Hdd. simpl. f_equal.
  apply pd_sum_all_NaN, select_all_NaN.
  apply DataFrame_of_columns in Hdd. destruct Hdd as [_ ->]. exact Hout'.
Qed.

Lemma length_to_frame (p : pmf) : length (to_frame p) = length p.
Proof. apply length_map. Qed.

Lemma length_zero_negative (s : pmf) : length (zero_negative s) = length s.
Proof. apply length_map. Qed.

Lemma length_scale (k : Qc) (s : pmf) : length (scale k s) = length s.
Proof. apply length_map. Qed.

Lemma length_time_to_tertiary (s si : pmf) :
  length (time_to_tertiary s si) = length s.
Proof.
  unfold time_to_tertiary.
  rewrite length_combine, length_convolve_same, length_axis, length_freq. lia.
Qed.

Lemma nonempty_length {A} (l : list A) : (0 < length l)%nat -> l <> [].
Proof. destruct l; simpl; [lia|discriminate]. Qed.

(** The conditional impact on finite tables whose frequencies at the
    delays from 0 on are not negative. *)
Lemma conditional_impact_Fin (s2t si c : pmf) :
  length si = length s2t -> length c = length s2t -> (0 < length s2t)%nat ->
  nonneg s2t ->
  exists t,
    parameters.get_time_to_tertiary_infection
      (parameters.enforce_positive (to_frame s2t)) (to_frame si) = Ok t /\
    parameters.get_contact_isolation_impact t (to_frame c)
    = Ok (Fin (conditional_impact s2t si c)).
Proof.
  intros H1 H2 H3 Hnn. unfold conditional_impact. cbv zeta.
  rewrite enforce_positive_to_frame.
  destruct (Qc_eq_dec (total (zero_negative s2t)) 0) as [Hz|Hz].
  - rewrite Hz. apply conditional_impact_all_NaN.
    + apply div_frequency_zero, nonneg_total_zero; auto.
      now apply nonneg_zero_negative.
    + unfold pd.div_frequency.
      rewrite length_map, !length_to_frame, length_zero_negative. lia.
    + rewrite length_to_frame. lia.
    + unfold pd.div_frequency.
      rewrite length_map, !length_to_frame, length_zero_negative. lia.
    + rewrite length_to_frame. lia.
  - rewrite div_frequency_nonzero by exact Hz.
    eexists. split.
    + apply get_time_to_tertiary_infection_Fin.
      * rewrite length_scale, length_zero_negative. lia.
      * apply nonempty_length. lia.
    + apply get_contact_isolation_impact_Fin.
      * rewrite length_time_to_tertiary, length_scale, length_zero_negative. lia.
      * apply nonempty_length. lia.
Qed.

(** [TT_model_rum] on finite parameters and finite tables. *)
Lemma TT_model_rum_Fin (sar sr pn ct cnt cc : Qc) (si s2t t3 c : pmf) :
  length si = length s2t -> length t3 = length s2t -> length c = length s2t ->
  (0 < length s2t)%nat -> nonneg s2t ->
  model.TT_model_rum (Fin sar) (Fin sr) (Fin pn) (Fin ct) (Fin cnt) (Fin cc)
                     (to_frame si) (to_frame s2t) (to_frame t3) (to_frame c)
  = Ok (exact_record sar sr pn ct cnt cc (mass_from_zero s2t)
                     (tail_probability_positive t3 c)
                     (conditional_impact s2t si c)).
Proof.
  intros H1 H2 H3 H4 Hnn. unfold model.TT_model_rum.
  rewrite get_contact_isolation_impact_Fin by (try apply nonempty_length; lia).
  cbn [bind]. unfold parameters.get_symptom_and_contact_success.
  destruct (conditional_impact_Fin si c H1 H3 H4 Hnn) as (t & -> & Hc).
  cbn [bind]. rewrite Hc. cbn [bind].
  rewrite (pd_sum_select (fun d => (0 <=? d)%Z)).
  reflexivity.
Qed.

(** ** Order and scaling of sums and convolutions *)















(** ** The intersection is below the contact impact *)

Lemma mass_from_zero_total (s : pmf) : mass_from_zero s = total (zero_negative s).
Proof.
  unfold mass_from_zero, exact.mass, total, zero_negative, freq.
  rewrite combine_axis_freq, map_map. f_equal. apply map_ext. intros [d f]. simpl.
  destruct (Z.leb_spec 0 d), (Z.ltb_spec d 0); auto; lia.
Qed.








Lemma freq_time_to_tertiary (s si : pmf) :
  freq (time_to_tertiary s si) = exact.convolve_same (freq s) (freq si).
Proof.
  unfold time_to_tertiary. apply freq_combine.
  now rewrite length_convolve_same, length_axis, length_freq.
Qed.

Lemma axis_time_to_tertiary (s si : pmf) : axis (time_to_tertiary s si) = axis s.
Proof.
  unfold time_to_tertiary. apply axis_combine.
  now rewrite length_convolve_same, length_axis, length_freq.
Qed.







(** Closed comparisons of rationals, by computation. *)
Ltac qc_decide :=
  unfold Qcle, Qclt; vm_compute;
  let H := fresh in intro H; discriminate H.

(** ** Nobody is notified *)

(** C4: with [percentage_notified = 0], finite parameters and finite
    tables on one axis whose frequencies are not negative, the record has
    [proportion_contacts_reached = proportion_contacts_reached_compliant =
    contact_isolation_success = symptom_and_contact_success = 0],
    [transmission_averted] equal to [symptom_isolation_success], and
    [marginal_impact = 0]. *)
Theorem TT_model_rum_nobody_notified
        (sar sr ct cnt cc : Qc) (si s2t t3 c : pmf) :
  length si = length s2t -> length t3 = length s2t -> length c = length s2t ->
  (0 < length s2t)%nat -> nonneg s2t ->
  exists r sis,
    model.TT_model_rum (Fin sar) (Fin sr) 0%f (Fin ct) (Fin cnt) (Fin cc)
                       (to_frame si) (to_frame s2t) (to_frame t3) (to_frame c) = Ok r /\
    dict_get r "proportion_contacts_reached" = Some 0%f /\
    dict_get r "proportion_contacts_reached_compliant" = Some 0%f /\
    dict_get r "contact_isolation_success" = Some 0%f /\
    dict_get r "symptom_and_contact_success" = Some 0%f /\
    dict_get r "symptom_isolation_success" = Some sis /\
    dict_get r "transmission_averted" = Some sis /\
    dict_get r "marginal_impact" = Some 0%f.
Proof.
  intros H1 H2 H3 H4 Hnn.
  rewrite (TT_model_rum_Fin sar sr 0 ct cnt cc si t3 c H1 H2 H3 H4 Hnn).
  do 2 eexists. split; [reflexivity|].
  unfold exact_record, dict_get. cbn [find fst snd String.eqb Ascii.eqb Bool.eqb].
  repeat split; do 2 f_equal; ring.
Qed.

Lemma nonneg_ex_before : nonneg ex.before.
Proof. repeat (apply Forall_cons; [qc_decide|]). apply Forall_nil. Qed.


Lemma nonneg_ex_after : nonneg ex.after.
Proof. repeat (apply Forall_cons; [qc_decide|]). apply Forall_nil. Qed.

Lemma TT_model_rum_nobody_notified_witness :
  exists r sis,
    model.TT_model_rum ex.half ex.half 0%f ex.half ex.half ex.half
                       (to_frame ex.now) (to_frame ex.after)
                       (to_frame ex.after) (to_frame ex.now) = Ok r /\
    dict_get r "proportion_contacts_reached" = Some 0%f /\
    dict_get r "proportion_contacts_reached_compliant" = Some 0%f /\
    dict_get r "contact_isolation_success" = Some 0%f /\
    dict_get r "symptom_and_contact_success" = Some 0%f /\
    dict_get r "symptom_isolation_success" = Some sis /\
    dict_get r "transmission_averted" = Some sis /\
    dict_get r "marginal_impact" = Some 0%f.
Proof.
  apply (@TT_model_rum_nobody_notified (dec 1 2) (dec 1 2) (dec 1 2) (dec 1 2) (dec 1 2)
           ex.now ex.after ex.after ex.now).
  - reflexivity.
  - reflexivity.
  - reflexivity.
  - simpl. lia.
  - exact nonneg_ex_after.
Defined.

(** ** No mass left after the negative delays are set to zero *)

(** C7, as amended: when setting the frequencies at negative delays to zero
    leaves the mass 0 (finite parameters, finite tables on one axis whose
    frequencies are not negative), no error is raised: dividing by the zero
    sum makes every frequency of the conditioned table NaN, and
    [TT_model_rum] returns a record whose [symptom_and_contact_success]
    and [symptom_isolation_success] are 0. *)
Theorem TT_model_rum_zero_mass_returns
        (sar sr pn ct cnt cc : Qc) (si s2t t3 c : pmf) :
  length si = length s2t -> length t3 = length s2t -> length c = length s2t ->
  (0 < length s2t)%nat -> nonneg s2t ->
  pd.sum (pd.col_frequency
            (pd.loc_set_frequency (fun r => (delay r <? 0)%Z) 0%f (to_frame s2t))) = 0%f ->
  Forall (eq NaN) (pd.col_frequency (parameters.enforce_positive (to_frame s2t))) /\
  exists r,
    model.TT_model_rum (Fin sar) (Fin sr) (Fin pn) (Fin ct) (Fin cnt) (Fin cc)
                       (to_frame si) (to_frame s2t) (to_frame t3) (to_frame c) = Ok r /\
    dict_get r "symptom_and_contact_success" = Some 0%f /\
    dict_get r "symptom_isolation_success" = Some 0%f.
Proof.
  intros H1 H2 H3 H4 Hnn Hzero.
  rewrite loc_set_zero_negative, col_frequency_to_frame, pd_sum_Fin in Hzero.
  injection Hzero as Hzero. fold (total (zero_negative s2t)) in Hzero.
  split.
  - rewrite enforce_positive_to_frame, Hzero.
    apply div_frequency_zero, nonneg_total_zero; auto.
    now apply nonneg_zero_negative.
  - rewrite (TT_model_rum_Fin sar sr pn ct cnt cc si t3 c H1 H2 H3 H4 Hnn).
    eexists. split; [reflexivity|].
    unfold exact_record, dict_get. cbn [find fst snd String.eqb Ascii.eqb Bool.eqb].
    unfold conditional_impact. cbv zeta. rewrite mass_from_zero_total, Hzero.
    destruct (Qc_eq_dec 0 0) as [_|Hn]; [|congruence].
    split; do 2 f_equal; ring.
Qed.

Lemma TT_model_rum_zero_mass_returns_witness :
  Forall (eq NaN) (pd.col_frequency (parameters.enforce_positive (to_frame ex.before))) /\
  exists r,
    model.TT_model_rum ex.half ex.half ex.half ex.half ex.half ex.half
                       (to_frame ex.now) (to_frame ex.before)
                       (to_frame ex.before) (to_frame ex.now) = Ok r /\
    dict_get r "symptom_and_contact_success" = Some 0%f /\
    dict_get r "symptom_isolation_success" = Some 0%f.
Proof.
  apply (@TT_model_rum_zero_mass_returns
           (dec 1 2) (dec 1 2) (dec 1 2) (dec 1 2) (dec 1 2) (dec 1 2)
           ex.now ex.before ex.before ex.now).
  - reflexivity.
  - reflexivity.
  - reflexivity.
  - simpl. lia.
  - exact nonneg_ex_before.
  - apply float64_eqb_eq. vm_compute. reflexivity.
Defined.

(** C7 as stated fails: on a table with all its mass at delay -1 the
    negative delays carry everything, the sum after zeroing them is 0, and
    the evaluation returns a record instead of raising. *)
Lemma TT_model_rum_zero_mass_no_error :
  pd.sum (pd.col_frequency
            (pd.loc_set_frequency (fun r => (delay r <? 0)%Z) 0%f
                                  (to_frame ex.before))) = 0%f /\
  exists r,
    model.TT_model_rum ex.half ex.half ex.half ex.half ex.half ex.half
                       (to_frame ex.now) (to_frame ex.before)
                       (to_frame ex.before) (to_frame ex.now) = Ok r /\
    dict_get r "symptom_and_contact_success" = Some 0%f.
Proof.
  split.
  - apply float64_eqb_eq. vm_compute. reflexivity.
  - unfold ex.half.
    rewrite (@TT_model_rum_Fin (dec 1 2) (dec 1 2) (dec 1 2) (dec 1 2) (dec 1 2) (dec 1 2)
               ex.now ex.before ex.before ex.now);
      try reflexivity; [|simpl; lia|exact nonneg_ex_before].
    eexists. split; [reflexivity|].
    unfold exact_record, dict_get. cbn [find fst snd String.eqb Ascii.eqb Bool.eqb].
    apply (f_equal Some). apply float64_eqb_eq. vm_compute. reflexivity.
Qed.

(** ** Monotonicity in the compliance with contact isolation *)








(** ** Renormalising steps *)








Lemma bind_Ok {A B} (m : result A) (k : A -> result B) (b : B) :
  bind m k = Ok b -> exists a, m = Ok a /\ k a = Ok b.
Proof. destruct m; simpl; [eauto|discriminate]. Qed.

(** The 'he' branch of [get_symptom_to_onward_vector].  Implicit arguments
    are not computed for the statements about it: finding them would
    evaluate the tables of the gamma densities. *)
Unset Implicit Arguments.

Lemma get_symptom_to_onward_vector_he
      (gamma_pdf : Qc -> Qc -> float64)
      (spline : list Qc -> list float64 -> Qc -> float64) (delay_bound : Z) :
  parameters.get_symptom_to_onward_vector gamma_pdf spline delay_bound "he"
  = (serial_interval_vector <- parameters.get_serial_interval gamma_pdf delay_bound ;;
     incubation_period_vector <- parameters.get_incubation_period gamma_pdf delay_bound ;;
     frequency <- np.convolve_same (pd.col_frequency serial_interval_vector)
                                   (rev (pd.col_frequency incubation_period_vector)) ;;
     let frequency := np.div_scalar frequency (np.sum frequency) in
     symptom_to_onward_data <-
       pd.DataFrame_of (pd.col_delay serial_interval_vector) frequency ;;
     let symptom_to_onward_data :=
       pd.loc_set_frequency (fun r => (delay r <? -2 * 24)%Z) 0%f symptom_to_onward_data in
     Ok (pd.div_frequency symptom_to_onward_data
                          (pd.sum (pd.col_frequency symptom_to_onward_data)))).
Proof. reflexivity. Qed.


Set Implicit Arguments.


(** ** The mass that a 'same'-mode convolution keeps *)



Lemma sum_map_plus {A} (g h : A -> Qc) (l : list A) :
  exact.sum (map (fun m => (g m + h m)%Qc) l)
  = (exact.sum (map g l) + exact.sum (map h l))%Qc.
Proof.
  induction l as [|x l IH]; simpl map.
  - unfold exact.sum. simpl. ring.
  - rewrite !sum_cons, IH. ring.
Qed.


Lemma sum_nil : exact.sum [] = 0%Qc.
Proof. reflexivity. Qed.

Lemma sum_zeros {A} (l : list A) : exact.sum (map (fun _ => 0%Qc) l) = 0%Qc.
Proof.
  induction l as [|x l IH]; simpl map.
  - reflexivity.
  - rewrite sum_cons, IH. ring.
Qed.






(** ** The mass of the tables *)

Unset Implicit Arguments.





(** ** The hourly axis of the contact tracing table *)

Lemma col_delay_div_frequency (df : DataFrame) (s : float64) :
  pd.col_delay (pd.div_frequency df s) = pd.col_delay df.
Proof. unfold pd.col_delay, pd.div_frequency. now rewrite map_map. Qed.

Lemma arange_not_stop (start stop : Z) : ~ In stop (np.arange start stop).
Proof.
  unfold np.arange. intros H. apply in_map_iff in H.
  destruct H as (i & Hi & Hin). apply in_seq in Hin. lia.
Qed.

(** The hours between the ceiling of the least midpoint and the floor of
    the greatest one lie in the range of the knots: the bounds check of
    the interpolant passes. *)
Lemma hourly_points_in_range (lo hi : Qc) :
  forallb (fun t => scipy.Qc_leb lo t && scipy.Qc_leb t hi)
          (map (fun d => Q2Qc (inject_Z d)) (np.arange (Qceiling lo) (Qfloor hi))) = true.
Proof.
  apply forallb_forall. intros t Ht. apply in_map_iff in Ht.
  destruct Ht as (d & <- & Hd). unfold np.arange in Hd. apply in_map_iff in Hd.
  destruct Hd as (i & <- & Hi). apply in_seq in Hi.
  apply andb_true_iff. unfold scipy.Qc_leb. rewrite !Qle_bool_iff.
  cbn [this Q2Qc]. rewrite !Qred_correct. split.
  - apply Qle_trans with (inject_Z (Qceiling lo)); [apply Qle_ceiling|].
    rewrite <- Zle_Qle. lia.
  - apply Qle_trans with (inject_Z (Qfloor hi)); [|apply Qfloor_le].
    rewrite <- Zle_Qle. lia.
Qed.

Lemma Qc_min_list_returns (l : list Qc) : l <> [] -> exists m, scipy.Qc_min_list l = Ok m.
Proof. destruct l; [congruence|]. simpl. eauto. Qed.

Lemma Qc_max_list_returns (l : list Qc) : l <> [] -> exists m, scipy.Qc_max_list l = Ok m.
Proof. destruct l; [congruence|]. simpl. eauto. Qed.

(** On a table of at least four rows [process_TT_e2e_file] returns, and its
    delay axis runs from the ceiling of the least midpoint up to, and
    without, the floor of the greatest one. *)
Lemma process_TT_e2e_file_returns
      (spline : list Qc -> list float64 -> Qc -> float64)
      (e2e : list ((Qc * Qc) * float64)) :
  (4 <= length e2e)%nat ->
  exists df lo hi,
    utils.process_TT_e2e_file spline e2e = Ok df /\
    scipy.Qc_min_list (map (fun r => utils.process_delay_column (fst r)) e2e) = Ok lo /\
    scipy.Qc_max_list (map (fun r => utils.process_delay_column (fst r)) e2e) = Ok hi /\
    pd.col_delay df = np.arange (Qceiling lo) (Qfloor hi) /\
    ~ In (Qfloor hi) (pd.col_delay df).
Proof.
  intros Hlen.
  assert (Hne : map (fun r => utils.process_delay_column (fst r)) e2e <> []).
  { destruct e2e; simpl in *; [lia|discriminate]. }
  destruct (Qc_min_list_returns _ Hne) as (lo & Hlo).
  destruct (Qc_max_list_returns _ Hne) as (hi & Hhi).
  unfold utils.process_TT_e2e_file. rewrite Hlo, Hhi. cbn [bind].
  unfold scipy.interp1d_cubic. rewrite !length_map, Nat.eqb_refl. cbn [negb].
  destruct (Nat.ltb_spec (length e2e) 4) as [|_]; [lia|].
  rewrite Hlo, Hhi. cbn [bind]. rewrite hourly_points_in_range. cbn [bind].
  destruct (DataFrame_of_returns (np.arange (Qceiling lo) (Qfloor hi))
              (np.div_scalar
                 (map (spline (map (fun r => utils.process_delay_column (fst r)) e2e)
                              (map snd e2e))
                      (map (fun d => Q2Qc (inject_Z d)) (np.arange (Qceiling lo) (Qfloor hi))))
                 (np.sum
                    (map (spline (map (fun r => utils.process_delay_column (fst r)) e2e)
                                 (map snd e2e))
                         (map (fun d => Q2Qc (inject_Z d))
                              (np.arange (Qceiling lo) (Qfloor hi)))))))
    as (d0 & Hd0 & _).
  { unfold np.div_scalar. now rewrite !length_map. }
  rewrite Hd0. cbn [bind].
  eexists _, lo, hi. split; [reflexivity|]. split; [reflexivity|]. split; [reflexivity|].
  apply DataFrame_of_columns in Hd0. destruct Hd0 as [Hd _].
  rewrite col_delay_div_frequency, Hd. split; [reflexivity|]. apply arange_not_stop.
Qed.

(** C9 at the table with the midpoints 1, 2, 3 and 4: the function
    returns the axis 1, 2, 3, without the hour 4 that the greatest
    midpoint gives. *)
Theorem process_TT_e2e_file_drops_last_hour
        (spline : list Qc -> list float64 -> Qc -> float64) :
  Forall2 (fun m z => m = Q2Qc (inject_Z z))
          (map (fun r => utils.process_delay_column (fst r)) ex.e2e) [1; 2; 3; 4]%Z /\
  exists df,
    utils.process_TT_e2e_file spline ex.e2e = Ok df /\
    pd.col_delay df = [1; 2; 3]%Z /\
    ~ In 4%Z (pd.col_delay df).
Proof.
  split.
  - repeat constructor; apply Qc_is_canon; reflexivity.
  - destruct (process_TT_e2e_file_returns spline ex.e2e)
      as (df & lo & hi & Hdf & Hlo & Hhi & Hax & _).
    + simpl. lia.
    + exists df. split; [exact Hdf|].
      vm_compute in Hlo. injection Hlo as <-.
      vm_compute in Hhi. injection Hhi as <-.
      rewrite Hax. vm_compute. split; [reflexivity|].
      intros [H|[H|[H|[]]]]; discriminate H.
Qed.

(** * Further properties of the code *)

(** ** When the functions raise *)

Lemma convolve_same_cases (a v : list float64) :
  ((length a = 0 \/ length v = 0)%nat -> np.convolve_same a v = Raise ValueError) /\
  ((0 < length a)%nat -> (0 < length v)%nat ->
   exists out, np.convolve_same a v = Ok out /\
               length out = Nat.max (length a) (length v)).
Proof.
  unfold np.convolve_same. split.
  - intros H. destruct (Nat.ltb_spec (length a) (length v)).
    + destruct (Nat.eqb_spec (length v) 0); auto.
      destruct (Nat.eqb_spec (length a) 0); auto. lia.
    + destruct (Nat.eqb_spec (length a) 0); auto.
      destruct (Nat.eqb_spec (length v) 0); auto. lia.
  - intros Ha Hv. destruct (Nat.ltb_spec (length a) (length v)).
    + destruct (Nat.eqb_spec (length v) 0); [lia|].
      destruct (Nat.eqb_spec (length a) 0); [lia|].
      eexists. split; [reflexivity|]. rewrite length_map, length_seq. lia.
    + destruct (Nat.eqb_spec (length a) 0); [lia|].
      destruct (Nat.eqb_spec (length v) 0); [lia|].
      eexists. split; [reflexivity|]. rewrite length_map, length_seq. lia.
Qed.

Lemma DataFrame_of_raises (d : list Z) (f : list float64) :
  length d <> length f -> pd.DataFrame_of d f = Raise ValueError.
Proof.
  intros H. unfold pd.DataFrame_of.
  destruct (Nat.eqb_spec (length d) (length f)); [contradiction|reflexivity].
Qed.

Lemma get_time_to_tertiary_infection_cases (s si : DataFrame) :
  ((0 < length si <= length s)%nat ->
   exists df, parameters.get_time_to_tertiary_infection s si = Ok df /\
              pd.col_delay df = pd.col_delay s) /\
  (~ (0 < length si <= length s)%nat ->
   parameters.get_time_to_tertiary_infection s si = Raise ValueError).
Proof.
  unfold parameters.get_time_to_tertiary_infection.
  destruct (convolve_same_cases (pd.col_frequency s) (pd.col_frequency si))
    as [Hraise Hok].
  rewrite !length_col_frequency in *.
  split.
  - intros [H1 H2]. destruct Hok as (out & -> & Hlen); [lia|lia|].
    cbn [bind].
    destruct (DataFrame_of_returns (pd.col_delay s) out) as (df & Hdf & _).
    { rewrite length_col_delay. lia. }
    exists df. split; [exact Hdf|].
    now apply DataFrame_of_columns in Hdf.
  - intros H.
    destruct (Nat.eq_dec (length s) 0) as [Hs|Hs]; [rewrite Hraise by auto; reflexivity|].
    destruct (Nat.eq_dec (length si) 0) as [Hsi|Hsi]; [rewrite Hraise by auto; reflexivity|].
    destruct Hok as (out & -> & Hlen); [lia|lia|].
    cbn [bind]. apply DataFrame_of_raises. rewrite length_col_delay. lia.
Qed.

Lemma get_time_to_tertiary_infection_axis (s si df : DataFrame) :
  parameters.get_time_to_tertiary_infection s si = Ok df ->
  pd.col_delay df = pd.col_delay s.
Proof.
  unfold parameters.get_time_to_tertiary_infection. intros H.
  apply bind_Ok in H. destruct H as (out & _ & H).
  now apply DataFrame_of_columns in H.
Qed.

(** X1: [get_time_to_tertiary_infection] returns a frame exactly when the
    second frame is not empty and not longer than the first one; the frame
    that it returns has the delay column of the first argument, and the
    only error that it raises is [ValueError].  A shorter second frame is
    accepted. *)
Theorem get_time_to_tertiary_infection_returns_iff (s si : DataFrame) :
  ((exists df, parameters.get_time_to_tertiary_infection s si = Ok df)
   <-> (0 < length si <= length s)%nat) /\
  (forall df, parameters.get_time_to_tertiary_infection s si = Ok df ->
              pd.col_delay df = pd.col_delay s) /\
  (forall e, parameters.get_time_to_tertiary_infection s si = Raise e ->
             e = ValueError).
Proof.
  destruct (get_time_to_tertiary_infection_cases s si) as [Hok Hraise].
  assert (Hdec : (0 < length si <= length s)%nat \/ ~ (0 < length si <= length s)%nat)
    by lia.
  split; [|split].
  - split.
    + intros (df & Hdf). destruct Hdec as [H|H]; [exact H|].
      rewrite (Hraise H) in Hdf. discriminate.
    + intros H. destruct (Hok H) as (df & Hdf & _). exists df. exact Hdf.
  - intros df. apply get_time_to_tertiary_infection_axis.
  - intros e He. destruct Hdec as [H|H].
    + destruct (Hok H) as (df & Hdf & _). rewrite Hdf in He. discriminate.
    + rewrite (Hraise H) in He. injection He as <-. reflexivity.
Qed.

Lemma get_contact_isolation_impact_returns_iff (t c : DataFrame) :
  ((0 < length c <= length t)%nat ->
   exists prob, parameters.get_contact_isolation_impact t c = Ok prob) /\
  (~ (0 < length c <= length t)%nat ->
   parameters.get_contact_isolation_impact t c = Raise ValueError).
Proof.
  split.
  - intros [H1 H2]. now apply get_contact_isolation_impact_returns.
  - intros H. unfold parameters.get_contact_isolation_impact.
    destruct (convolve_same_cases (pd.col_frequency t) (rev (pd.col_frequency c)))
      as [Hraise Hok].
    rewrite !length_rev, !length_col_frequency in *.
    destruct (Nat.eq_dec (length t) 0) as [Ht|Ht]; [rewrite Hraise by auto; reflexivity|].
    destruct (Nat.eq_dec (length c) 0) as [Hc|Hc]; [rewrite Hraise by auto; reflexivity|].
    destruct Hok as (out & -> & Hlen); [lia|lia|].
    cbn [bind]. rewrite DataFrame_of_raises; [reflexivity|].
    rewrite length_col_delay. lia.
Qed.

(** X2: [TT_model_rum] returns a record exactly when
    [total_time_to_contact] is not empty and not longer than
    [time_to_tertiary_infection] and [secondary_symptoms_to_tertiary], and
    [serial_interval] is not empty and not longer than
    [secondary_symptoms_to_tertiary]; in every other case it raises
    [ValueError].  The six parameters have no part in this: no value of
    them is rejected. *)
Theorem TT_model_rum_returns_iff
        (sar sr pn ct cnt cc : float64) (si s2t t3 c : DataFrame) :
  let fits :=
    ((0 < length c <= length t3)%nat /\
     (0 < length si <= length s2t)%nat /\
     (length c <= length s2t)%nat) in
  (fits -> exists r, model.TT_model_rum sar sr pn ct cnt cc si s2t t3 c = Ok r) /\
  (~ fits -> model.TT_model_rum sar sr pn ct cnt cc si s2t t3 c = Raise ValueError).
Proof.
  cbv zeta. unfold model.TT_model_rum.
  destruct (get_contact_isolation_impact_returns_iff t3 c) as [Hok1 Hraise1].
  split.
  - intros (H1 & H2 & H3). destruct (Hok1 H1) as (impact & ->). cbn [bind].
    destruct (@get_symptom_and_contact_success_returns
                (pd.sum (pd.col_frequency (pd.select (fun r => (0 <=? delay r)%Z) s2t)) *
                 (sr * sar * ct + (1 - sar) * sr * cnt))%f sr sar cc pn s2t si c)
      as (t & cond & _ & _ & ->); try lia.
    cbn [bind]. eauto.
  - intros H.
    destruct (Compare_dec.le_lt_dec (length c) (length t3)) as [Hle|Hgt];
      [|rewrite Hraise1 by lia; reflexivity].
    destruct (Nat.eq_dec (length c) 0) as [Hc|Hc];
      [rewrite Hraise1 by lia; reflexivity|].
    destruct Hok1 as (impact & ->); [lia|]. cbn [bind].
    unfold parameters.get_symptom_and_contact_success.
    destruct (get_time_to_tertiary_infection_cases
                (parameters.enforce_positive s2t) si) as [Hok2 Hraise2].
    rewrite length_enforce_positive in *.
    destruct (Compare_dec.le_lt_dec (length si) (length s2t)) as [Hle2|Hgt2];
      [|rewrite Hraise2 by lia; reflexivity].
    destruct (Nat.eq_dec (length si) 0) as [Hsi|Hsi];
      [rewrite Hraise2 by lia; reflexivity|].
    destruct Hok2 as (t & Ht & Hax); [lia|]. rewrite Ht. cbn [bind].
    assert (Hlen : length t = length s2t).
    { rewrite <- (length_col_delay t), Hax, length_col_delay.
      apply length_enforce_positive. }
    destruct (get_contact_isolation_impact_returns_iff t c) as [_ Hraise3].
    rewrite Hraise3 by lia. reflexivity.
Qed.

(** ** Sums over indices *)

Lemma sum_ext_in {A} (f g : A -> Qc) (l : list A) :
  (forall x, In x l -> f x = g x) -> exact.sum (map f l) = exact.sum (map g l).
Proof. intros H. f_equal. now apply map_ext_in. Qed.

Lemma sum_swap {A B} (f : A -> B -> Qc) (l1 : list A) (l2 : list B) :
  exact.sum (map (fun x => exact.sum (map (fun y => f x y) l2)) l1)
  = exact.sum (map (fun y => exact.sum (map (fun x => f x y) l1)) l2).
Proof.
  induction l1 as [|x l1 IH]; simpl map.
  - rewrite sum_nil. symmetry. apply sum_zeros.
  - rewrite sum_cons, IH, <- sum_map_plus. reflexivity.
Qed.

Lemma sum_if_push {A} (c : bool) (f : A -> Qc) (l : list A) :
  (if c then exact.sum (map f l) else 0%Qc)
  = exact.sum (map (fun y => if c then f y else 0%Qc) l).
Proof. destruct c; [reflexivity|]. symmetry. apply sum_zeros. Qed.

Lemma sum_filter_if {A} (P : A -> bool) (f : A -> Qc) (l : list A) :
  exact.sum (map f (filter P l))
  = exact.sum (map (fun x => if P x then f x else 0%Qc) l).
Proof.
  induction l as [|x l IH]; simpl; auto.
  destruct (P x); simpl map; rewrite ?sum_cons, IH; ring.
Qed.

(** A sum over consecutive indices of a term that is zero except at the
    index [t]. *)
Lemma sum_indicator_seq (g : nat -> Qc) (t s n : nat) :
  exact.sum (map (fun j => if (j =? t)%nat then g j else 0%Qc) (seq s n))
  = if ((s <=? t) && (t <? s + n))%nat then g t else 0%Qc.
Proof.
  revert s. induction n as [|n IH]; intros s.
  - simpl map. rewrite sum_nil.
    destruct (Nat.leb_spec s t), (Nat.ltb_spec t (s + 0)); simpl; auto; lia.
  - cbn [seq map]. rewrite sum_cons, IH.
    destruct (Nat.eqb_spec s t) as [->|Hne].
    + destruct (Nat.leb_spec (S t) t); [lia|].
      destruct (Nat.leb_spec t t); [|lia].
      destruct (Nat.ltb_spec t (t + S n)); [|lia].
      simpl. ring.
    + destruct (Nat.leb_spec (S s) t), (Nat.ltb_spec t (S s + n)),
        (Nat.leb_spec s t), (Nat.ltb_spec t (s + S n)); simpl; try lia; ring.
Qed.

(** ** Convolutions as sums over pairs *)

(** An entry of the full convolution is the sum of the products over the
    pairs of indices that add up to its index. *)
Lemma convolve_at_pairs (a v : list Qc) (m : nat) :
  exact.convolve_at a v m
  = exact.sum
      (map (fun i =>
              exact.sum
                (map (fun j => if (i + j =? m)%nat
                               then (nth i a 0 * nth j v 0)%Qc else 0%Qc)
                     (seq 0 (length v))))
           (seq 0 (length a))).
Proof.
  unfold exact.convolve_at. rewrite sum_filter_if. apply sum_ext_in.
  intros i _. destruct (Nat.leb_spec i m) as [Hle|Hgt].
  - rewrite (sum_ext_in
               (fun j => if (i + j =? m)%nat then (nth i a 0 * nth j v 0)%Qc else 0%Qc)
               (fun j => if (j =? m - i)%nat then (nth i a 0 * nth j v 0)%Qc else 0%Qc)).
    + rewrite (sum_indicator_seq (fun j => (nth i a 0 * nth j v 0)%Qc)).
      cbn [Nat.leb andb plus]. reflexivity.
    + intros j _.
      destruct (Nat.eqb_spec (i + j) m), (Nat.eqb_spec j (m - i)); auto; lia.
  - cbn [andb].
    rewrite (sum_ext_in
               (fun j => if (i + j =? m)%nat then (nth i a 0 * nth j v 0)%Qc else 0%Qc)
               (fun _ => 0%Qc)).
    + symmetry. apply sum_zeros.
    + intros j _. destruct (Nat.eqb_spec (i + j) m); auto; lia.
Qed.





(** ** The symmetric axis *)

Lemma symmetric_axis_seq (B : nat) :
  symmetric_axis B
  = map (fun i => (Z.of_nat i - Z.of_nat B)%Z) (seq 0 (2 * B + 1)).
Proof.
  unfold symmetric_axis, np.arange.
  replace (Z.to_nat (Z.of_nat B + 1 - - Z.of_nat B)) with (2 * B + 1)%nat by lia.
  apply map_ext. intros i. lia.
Qed.

Lemma length_symmetric_axis (B : nat) : length (symmetric_axis B) = (2 * B + 1)%nat.
Proof. now rewrite symmetric_axis_seq, length_map, length_seq. Qed.

Lemma at_delay_index (B : nat) (f : list Qc) (i : nat) :
  at_delay B f (Z.of_nat i - Z.of_nat B) = nth i f 0%Qc.
Proof.
  unfold at_delay. f_equal. lia.
Qed.

Lemma nth_map_seq {A} (f : nat -> A) (d : A) (n k : nat) :
  (k < n)%nat -> nth k (map f (seq 0 n)) d = f k.
Proof.
  intros H. rewrite (nth_indep _ d (f 0%nat)) by now rewrite length_map, length_seq.
  rewrite map_nth, seq_nth; auto.
Qed.

(** The mass that [pair_mass] gives, over indices. *)
Lemma pair_mass_indices (B : nat) (a b : list Qc) (keep : Z -> Z -> bool) :
  pair_mass B a b keep
  = exact.sum
      (map (fun i =>
              exact.sum
                (map (fun j =>
                        if keep (Z.of_nat i - Z.of_nat B)%Z (Z.of_nat j - Z.of_nat B)%Z
                        then (nth i a 0 * nth j b 0)%Qc else 0%Qc)
                     (seq 0 (2 * B + 1))))
           (seq 0 (2 * B + 1))).
Proof.
  unfold pair_mass. rewrite symmetric_axis_seq, map_map.
  apply sum_ext_in. intros i _. rewrite map_map. apply sum_ext_in. intros j _.
  now rewrite !at_delay_index.
Qed.

Lemma half_of_even (B : nat) : ((2 * B + 1 - 1) / 2 = B)%nat.
Proof.
  replace (2 * B + 1 - 1)%nat with (B * 2)%nat by lia. now apply Nat.div_mul.
Qed.

(** X4: on the axis from [-B] to [B], the table that
    [get_time_to_tertiary_infection] returns is the distribution of the
    sum of the two delays, cut to the axis: its frequency at a delay [d]
    of the axis is the mass of the pairs [(x, y)] of delays of the axis
    with [x + y = d]. *)
Theorem get_time_to_tertiary_infection_sum_distribution (B : nat) (s si : pmf) :
  axis s = symmetric_axis B -> length si = length s ->
  exists t,
    parameters.get_time_to_tertiary_infection (to_frame s) (to_frame si)
    = Ok (to_frame t) /\
    axis t = symmetric_axis B /\
    forall d, In d (symmetric_axis B) ->
              at_delay B (freq t) d
              = pair_mass B (freq s) (freq si) (fun x y => (x + y =? d)%Z).
Proof.
  intros Hax Hlen.
  assert (Hn : length s = (2 * B + 1)%nat)
    by now rewrite <- length_axis, Hax, length_symmetric_axis.
  exists (time_to_tertiary s si). split; [|split].
  - apply get_time_to_tertiary_infection_Fin; [lia|].
    intros ->. simpl in Hlen. lia.
  - now rewrite axis_time_to_tertiary.
  - intros d Hd. rewrite symmetric_axis_seq in Hd. apply in_map_iff in Hd.
    destruct Hd as (k & <- & Hk). apply in_seq in Hk.
    rewrite at_delay_index, freq_time_to_tertiary. unfold exact.convolve_same.
    rewrite !length_freq, Hlen, Hn, half_of_even, nth_map_seq by lia.
    rewrite convolve_at_pairs, pair_mass_indices, !length_freq, Hlen, Hn.
    apply sum_ext_in. intros i _. apply sum_ext_in. intros j _.
    destruct (Nat.eqb_spec (i + j) (k + B)),
      (Z.eqb_spec (Z.of_nat i - Z.of_nat B + (Z.of_nat j - Z.of_nat B))
                  (Z.of_nat k - Z.of_nat B)); auto; lia.
Qed.

Lemma sum_shifted_indicator (g : nat -> Qc) (p q n : nat) :
  exact.sum (map (fun j => if (p + j =? q)%nat then g j else 0%Qc) (seq 0 n))
  = if ((p <=? q) && (q - p <? n))%nat then g (q - p)%nat else 0%Qc.
Proof.
  destruct (Nat.leb_spec p q) as [Hle|Hgt].
  - rewrite (sum_ext_in (fun j => if (p + j =? q)%nat then g j else 0%Qc)
                        (fun j => if (j =? q - p)%nat then g j else 0%Qc)).
    + now rewrite sum_indicator_seq.
    + intros j _. destruct (Nat.eqb_spec (p + j) q), (Nat.eqb_spec j (q - p)); auto; lia.
  - rewrite (sum_ext_in (fun j => if (p + j =? q)%nat then g j else 0%Qc)
                        (fun _ => 0%Qc)).
    + apply sum_zeros.
    + intros j _. destruct (Nat.eqb_spec (p + j) q); auto; lia.
Qed.

(** With the second column reversed, the pairs are those whose indices
    differ by the index of the entry, counted from the middle. *)
Lemma convolve_at_rev_pairs (a b : list Qc) (B k : nat) :
  length a = (2 * B + 1)%nat -> length b = (2 * B + 1)%nat -> (k < 2 * B + 1)%nat ->
  exact.convolve_at a (rev b) (k + B)
  = exact.sum
      (map (fun i =>
              exact.sum
                (map (fun j => if (k + j =? i + B)%nat
                               then (nth i a 0 * nth j b 0)%Qc else 0%Qc)
                     (seq 0 (2 * B + 1))))
           (seq 0 (2 * B + 1))).
Proof.
  intros Ha Hb Hk. rewrite convolve_at_pairs, length_rev, Ha, Hb.
  apply sum_ext_in. intros i Hi. apply in_seq in Hi.
  rewrite (sum_shifted_indicator (fun j => (nth i a 0 * nth j (rev b) 0)%Qc)).
  rewrite (sum_shifted_indicator (fun j => (nth i a 0 * nth j b 0)%Qc)).
  destruct (Nat.leb_spec i (k + B)), (Nat.ltb_spec (k + B - i) (2 * B + 1)),
    (Nat.leb_spec k (i + B)), (Nat.ltb_spec (i + B - k) (2 * B + 1));
    cbn [andb]; try lia; auto.
  rewrite rev_nth by lia. rewrite Hb. do 2 f_equal. lia.
Qed.

Lemma combine_map_same {A B C} (f : A -> B) (g : A -> C) (l : list A) :
  combine (map f l) (map g l) = map (fun x => (f x, g x)) l.
Proof. induction l; simpl; congruence. Qed.

Lemma mass_map_same {A} (keep : Z -> bool) (f : A -> Z) (g : A -> Qc) (l : list A) :
  exact.mass keep (map f l) (map g l)
  = exact.sum (map (fun k => if keep (f k) then g k else 0%Qc) l).
Proof. unfold exact.mass. now rewrite combine_map_same, map_map. Qed.

(** X5: on the axis from [-B] to [B], [get_contact_isolation_impact]
    returns the mass of the pairs of delays [(x, y)] of the two tables
    with [0 < x - y <= B]: the probability that the first delay exceeds
    the second one by at most [B] hours.  Differences above [B] are not
    counted. *)
Theorem get_contact_isolation_impact_difference (B : nat) (t c : pmf) :
  axis t = symmetric_axis B -> length c = length t ->
  parameters.get_contact_isolation_impact (to_frame t) (to_frame c)
  = Ok (Fin (pair_mass B (freq t) (freq c)
                       (fun x y => (0 <? x - y)%Z && (x - y <=? Z.of_nat B)%Z))).
Proof.
  intros Hax Hlen.
  assert (Hn : length t = (2 * B + 1)%nat)
    by now rewrite <- length_axis, Hax, length_symmetric_axis.
  rewrite get_contact_isolation_impact_Fin;
    [|lia|intros ->; simpl in Hlen; lia].
  do 2 f_equal. unfold tail_probability_positive, exact.convolve_same.
  rewrite Hax, symmetric_axis_seq, length_rev, !length_freq, Hlen, Hn, half_of_even.
  rewrite mass_map_same, pair_mass_indices.
  rewrite (sum_ext_in
             (fun k => if (0 <? Z.of_nat k - Z.of_nat B)%Z
                       then exact.convolve_at (freq t) (rev (freq c)) (k + B)
                       else 0%Qc)
             (fun k =>
                exact.sum
                  (map (fun i =>
                          exact.sum
                            (map (fun j =>
                                    if (0 <? Z.of_nat k - Z.of_nat B)%Z
                                    then if (k + j =? i + B)%nat
                                         then (nth i (freq t) 0 * nth j (freq c) 0)%Qc
                                         else 0%Qc
                                    else 0%Qc)
                                 (seq 0 (2 * B + 1))))
                       (seq 0 (2 * B + 1))))).
  2:{ intros k Hk. apply in_seq in Hk.
      rewrite convolve_at_rev_pairs by (rewrite ?length_freq; lia).
      rewrite sum_if_push. apply sum_ext_in. intros i _. apply sum_if_push. }
  rewrite sum_swap. apply sum_ext_in. intros i Hi. apply in_seq in Hi.
  rewrite sum_swap. apply sum_ext_in. intros j Hj. apply in_seq in Hj.
  rewrite (sum_ext_in
             (fun k => if (0 <? Z.of_nat k - Z.of_nat B)%Z
                       then if (k + j =? i + B)%nat
                            then (nth i (freq t) 0 * nth j (freq c) 0)%Qc
                            else 0%Qc
                       else 0%Qc)
             (fun k => if (j + k =? i + B)%nat
                       then if (0 <? Z.of_nat k - Z.of_nat B)%Z
                            then (nth i (freq t) 0 * nth j (freq c) 0)%Qc
                            else 0%Qc
                       else 0%Qc)).
  2:{ intros k _. rewrite (Nat.add_comm j k).
      destruct (0 <? Z.of_nat k - Z.of_nat B)%Z, (k + j =? i + B)%nat; reflexivity. }
  rewrite (sum_shifted_indicator
             (fun k => if (0 <? Z.of_nat k - Z.of_nat B)%Z
                       then (nth i (freq t) 0 * nth j (freq c) 0)%Qc
                       else 0%Qc)).
  destruct (Nat.leb_spec j (i + B)), (Nat.ltb_spec (i + B - j) (2 * B + 1)),
    (Z.ltb_spec 0 (Z.of_nat (i + B - j) - Z.of_nat B)),
    (Z.ltb_spec 0 (Z.of_nat i - Z.of_nat B - (Z.of_nat j - Z.of_nat B))),
    (Z.leb_spec (Z.of_nat i - Z.of_nat B - (Z.of_nat j - Z.of_nat B)) (Z.of_nat B));
    cbn [andb]; auto; lia.
Qed.

Lemma get_contact_isolation_impact_difference_witness :
  parameters.get_contact_isolation_impact (to_frame ex.after) (to_frame ex.before)
  = Ok (Fin (pair_mass 1 (freq ex.after) (freq ex.before)
                       (fun x y => (0 <? x - y)%Z && (x - y <=? Z.of_nat 1)%Z))).
Proof.
  apply get_contact_isolation_impact_difference.
  - reflexivity.
  - reflexivity.
Defined.

Lemma get_time_to_tertiary_infection_sum_distribution_witness :
  exists t,
    parameters.get_time_to_tertiary_infection (to_frame ex.now) (to_frame ex.after)
    = Ok (to_frame t) /\
    axis t = symmetric_axis 1 /\
    forall d, In d (symmetric_axis 1) ->
              at_delay 1 (freq t) d
              = pair_mass 1 (freq ex.now) (freq ex.after) (fun x y => (x + y =? d)%Z).
Proof.
  apply get_time_to_tertiary_infection_sum_distribution.
  - reflexivity.
  - reflexivity.
Defined.

(** ** Merging a frame onto an axis *)

Lemma filter_delay_NoDup (df : DataFrame) (d : Z) :
  NoDup (pd.col_delay df) ->
  filter (fun r => (delay r =? d)%Z) df
  = match find (fun r => (delay r =? d)%Z) df with
    | Some r => [r]
    | None => []
    end.
Proof.
  induction df as [|r df IH]; intros Hnd; simpl; auto.
  inversion Hnd as [|? ? Hnotin Hnd']; subst.
  destruct (Z.eqb_spec (delay r) d) as [Heq|Hne].
  - f_equal. rewrite IH by assumption.
    destruct (find (fun r0 => (delay r0 =? d)%Z) df) as [r'|] eqn:E; auto.
    apply find_some in E. destruct E as [Hin Hd]. apply Z.eqb_eq in Hd.
    exfalso. apply Hnotin. unfold pd.col_delay. apply in_map_iff.
    exists r'. split; [congruence|assumption].
  - now apply IH.
Qed.

(** On a frame with at most one row per delay the left merge gives one row
    per delay of the axis. *)
Lemma merge_left_fillna0_on_axis (ax : list Z) (df : DataFrame) :
  NoDup (pd.col_delay df) -> pd.merge_left_fillna0 ax df = on_axis ax df.
Proof.
  intros Hnd. unfold pd.merge_left_fillna0, on_axis.
  induction ax as [|d ax IH]; [reflexivity|].
  cbn [flat_map]. rewrite IH. rewrite filter_delay_NoDup by assumption.
  replace (match
              match find (fun r => (delay r =? d)%Z) df with
              | Some r => [r]
              | None => []
              end
            with
            | [] => [{| delay := d; frequency := 0%f |}]
            | r :: l =>
                map (fun r0 => {| delay := d; frequency := pd.fillna0 (frequency r0) |})
                    (r :: l)
            end)
    with [{| delay := d; frequency := frequency_at df d |}]; [reflexivity|].
  unfold frequency_at.
  destruct (find (fun r => (delay r =? d)%Z) df); reflexivity.
Qed.

Lemma col_delay_on_axis (ax : list Z) (df : DataFrame) :
  pd.col_delay (on_axis ax df) = ax.
Proof.
  unfold pd.col_delay, on_axis. rewrite map_map. simpl. apply map_id.
Qed.

Lemma length_on_axis (ax : list Z) (df : DataFrame) :
  length (on_axis ax df) = length ax.
Proof. apply length_map. Qed.

Lemma frequency_at_not_NaN (df : DataFrame) (d : Z) : frequency_at df d <> NaN.
Proof.
  unfold frequency_at. destruct (find _ df) as [r|]; [|discriminate].
  unfold pd.fillna0. destruct (frequency r); simpl; discriminate.
Qed.

Lemma frequency_at_absent (df : DataFrame) (d : Z) :
  ~ In d (pd.col_delay df) -> frequency_at df d = 0%f.
Proof.
  intros H. unfold frequency_at.
  destruct (find (fun r => (delay r =? d)%Z) df) as [r|] eqn:E; auto.
  apply find_some in E. destruct E as [Hin Hd]. apply Z.eqb_eq in Hd.
  exfalso. apply H. unfold pd.col_delay. apply in_map_iff. now exists r.
Qed.

Lemma arange_In (start stop d : Z) :
  In d (np.arange start stop) <-> (start <= d < stop)%Z.
Proof.
  unfold np.arange. rewrite in_map_iff. split.
  - intros (i & <- & Hi). apply in_seq in Hi. lia.
  - intros H. exists (Z.to_nat (d - start)). split; [lia|]. apply in_seq. lia.
Qed.

Lemma NoDup_map_injective {A B} (f : A -> B) (l : list A) :
  (forall x y, f x = f y -> x = y) -> NoDup l -> NoDup (map f l).
Proof.
  intros Hinj. induction 1 as [|x l Hx Hl IH]; simpl; constructor; auto.
  intros Hin. apply in_map_iff in Hin. destruct Hin as (y & Hy & Hin).
  apply Hinj in Hy. now subst.
Qed.

Lemma arange_NoDup (start stop : Z) : NoDup (np.arange start stop).
Proof.
  unfold np.arange. apply NoDup_map_injective; [|apply seq_NoDup].
  intros i j H. lia.
Qed.

Lemma length_arange (start stop : Z) :
  length (np.arange start stop) = Z.to_nat (stop - start).
Proof. unfold np.arange. now rewrite length_map, length_seq. Qed.

Lemma frequency_at_to_frame (p : pmf) (d : Z) :
  frequency_at (to_frame p) d = Fin (lookup_frequency p d).
Proof.
  unfold frequency_at, lookup_frequency.
  induction p as [|[x f] p IH]; simpl; auto.
  destruct (x =? d)%Z; auto.
Qed.

Lemma on_axis_to_frame (ax : list Z) (p : pmf) :
  on_axis ax (to_frame p) = to_frame (pmf_on_axis ax p).
Proof.
  unfold on_axis, pmf_on_axis, to_frame. rewrite map_map. apply map_ext.
  intros d. simpl. now rewrite <- frequency_at_to_frame.
Qed.

Lemma sum_indicator_NoDup (x : Z) (f : Qc) (ax : list Z) :
  NoDup ax -> In x ax ->
  exact.sum (map (fun d => if (x =? d)%Z then f else 0%Qc) ax) = f.
Proof.
  induction 1 as [|d ax Hd Hnd IH]; intros Hin; [contradiction|].
  simpl map. rewrite sum_cons. destruct (Z.eqb_spec x d) as [->|Hne].
  - rewrite (sum_ext_in (fun d0 => if (d =? d0)%Z then f else 0%Qc) (fun _ => 0%Qc)).
    + rewrite sum_zeros. ring.
    + intros y Hy. destruct (Z.eqb_spec d y); auto. subst. contradiction.
  - destruct Hin as [->|Hin]; [contradiction|]. rewrite IH by assumption. ring.
Qed.

Lemma lookup_frequency_absent (p : pmf) (d : Z) :
  ~ In d (axis p) -> lookup_frequency p d = 0%Qc.
Proof.
  intros H. unfold lookup_frequency.
  destruct (find (fun r => (fst r =? d)%Z) p) as [r|] eqn:E; auto.
  apply find_some in E. destruct E as [Hin Hd]. apply Z.eqb_eq in Hd.
  exfalso. apply H. unfold axis. apply in_map_iff. now exists r.
Qed.

(** Merging a finite table onto an axis that has all its delays keeps its
    mass. *)
Lemma pmf_on_axis_total (ax : list Z) (p : pmf) :
  NoDup ax -> NoDup (axis p) -> (forall d, In d (axis p) -> In d ax) ->
  total (pmf_on_axis ax p) = total p.
Proof.
  intros Hax. unfold total, pmf_on_axis, freq. rewrite map_map. cbn [snd].
  induction p as [|[x f] p IH]; intros Hnd Hincl.
  - rewrite (sum_ext_in (fun d => lookup_frequency [] d) (fun _ => 0%Qc))
      by reflexivity.
    apply sum_zeros.
  - inversion Hnd as [|? ? Hx Hnd']; subst. simpl map. rewrite sum_cons.
    rewrite <- IH; [|assumption|intros d Hd; apply Hincl; now right].
    transitivity
      (exact.sum (map (fun d => ((if (x =? d)%Z then f else 0) + lookup_frequency p d)%Qc)
                      ax)).
    + apply sum_ext_in. intros d _.
      unfold lookup_frequency at 1. cbn [find fst snd].
      destruct (Z.eqb_spec x d) as [->|Hne].
      * rewrite lookup_frequency_absent by assumption. cbn [snd]. ring.
      * fold (lookup_frequency p d). cbn [snd]. ring.
    + rewrite sum_map_plus, sum_indicator_NoDup; auto. apply Hincl. now left.
Qed.

(** ** The gamma tables *)

Lemma length_delay_days :
  length (np.arange_step 0 (Q2Qc (inject_Z 40) + dec 1 1000) (dec 1 24)) = 961%nat.
Proof.
  unfold np.arange_step. rewrite length_map, length_seq. vm_compute. reflexivity.
Qed.

(** The table built from a gamma density lives on the hours 0 to 960 and
    is then merged onto the axis from [-delay_bound] to [delay_bound]. *)
Lemma gamma_frame_on_axis (gamma_pdf : Qc -> Qc -> float64) (shape rate : Qc)
      (delay_bound : Z) :
  exists df0,
    parameters.gamma_frame gamma_pdf shape rate delay_bound
    = Ok (on_axis (np.arange (- delay_bound) (delay_bound + 1)) df0) /\
    pd.col_delay df0 = np.arange 0 (40 * 24 + 1).
Proof.
  unfold parameters.gamma_frame. cbv zeta.
  destruct (DataFrame_of_returns
              (np.arange 0 (40 * 24 + 1))
              (np.div_scalar
                 (parameters.dgamma gamma_pdf
                    (np.arange_step 0 (Q2Qc (inject_Z 40) + dec 1 1000) (dec 1 24))
                    shape rate)
                 (np.sum
                    (parameters.dgamma gamma_pdf
                       (np.arange_step 0 (Q2Qc (inject_Z 40) + dec 1 1000) (dec 1 24))
                       shape rate))))
    as (df0 & Hdf0 & _).
  { unfold np.div_scalar, parameters.dgamma.
    rewrite !length_map, length_delay_days, length_arange. reflexivity. }
  rewrite Hdf0. cbn [bind]. exists df0.
  apply DataFrame_of_columns in Hdf0. destruct Hdf0 as [Hd _].
  split; [|exact Hd].
  f_equal. apply merge_left_fillna0_on_axis. rewrite Hd. apply arange_NoDup.
Qed.

(** X6: [get_serial_interval] and [get_incubation_period] return, for
    every delay bound and every density, a frame on the hours from
    [-delay_bound] to [delay_bound] whose frequency is 0 at every negative
    delay and at every delay above 960 hours, and is never NaN: the NaN
    that dividing by a zero sum produces ends as 0. *)
Theorem gamma_tables (gamma_pdf : Qc -> Qc -> float64) (delay_bound : Z) :
  padded_gamma_table delay_bound (parameters.get_serial_interval gamma_pdf delay_bound) /\
  padded_gamma_table delay_bound (parameters.get_incubation_period gamma_pdf delay_bound).
Proof.
  assert (H : forall shape rate,
             padded_gamma_table delay_bound
               (parameters.gamma_frame gamma_pdf shape rate delay_bound)).
  { intros shape rate. unfold padded_gamma_table.
    destruct (gamma_frame_on_axis gamma_pdf shape rate delay_bound) as (df0 & Hdf & Hd0).
    eexists. split; [exact Hdf|]. split; [apply col_delay_on_axis|]. split.
    - intros r Hr Hout. unfold on_axis in Hr. apply in_map_iff in Hr.
      destruct Hr as (d & <- & _). cbn [delay frequency] in *.
      apply frequency_at_absent. rewrite Hd0, arange_In. lia.
    - intros r Hr. unfold on_axis in Hr. apply in_map_iff in Hr.
      destruct Hr as (d & <- & _). cbn [frequency]. apply frequency_at_not_NaN. }
  split.
  - unfold parameters.get_serial_interval. apply H.
  - unfold parameters.get_incubation_period. apply H.
Qed.

(** ** Padding *)

Lemma fold_left_min_spec (l : list Z) (x : Z) :
  (fold_left Z.min l x <= x)%Z /\
  Forall (fun y => (fold_left Z.min l x <= y)%Z) l.
Proof.
  revert x. induction l as [|y l IH]; intros x; simpl.
  - split; [lia|constructor].
  - destruct (IH (Z.min x y)) as [H1 H2]. split; [lia|].
    constructor; [lia|assumption].
Qed.

Lemma fold_left_max_spec (l : list Z) (x : Z) :
  (x <= fold_left Z.max l x)%Z /\
  Forall (fun y => (y <= fold_left Z.max l x)%Z) l.
Proof.
  revert x. induction l as [|y l IH]; intros x; simpl.
  - split; [lia|constructor].
  - destruct (IH (Z.max x y)) as [H1 H2]. split; [lia|].
    constructor; [lia|assumption].
Qed.

Lemma series_min_spec (l : list Z) :
  l <> [] -> exists m, pd.series_min l = Some m /\ Forall (fun y => (m <= y)%Z) l.
Proof.
  destruct l as [|x l]; [congruence|]. intros _. simpl. eexists. split; [reflexivity|].
  destruct (fold_left_min_spec l x). now constructor.
Qed.

Lemma series_max_spec (l : list Z) :
  l <> [] -> exists m, pd.series_max l = Some m /\ Forall (fun y => (y <= m)%Z) l.
Proof.
  destruct l as [|x l]; [congruence|]. intros _. simpl. eexists. split; [reflexivity|].
  destruct (fold_left_max_spec l x). now constructor.
Qed.

(** [min] over columns none of which is empty: the least delay. *)
Lemma py_min_spec (cols : list (list Z)) :
  cols <> [] -> Forall (fun l => l <> []) cols ->
  exists m, py.min (map pd.series_min cols) = Ok (Some m) /\
            Forall (Forall (fun y => (m <= y)%Z)) cols.
Proof.
  destruct cols as [|c cols]; [congruence|]. intros _ Hne.
  inversion Hne as [|? ? Hc Hcols]; subst.
  destruct (series_min_spec c Hc) as (m0 & Hm0 & Hle0).
  cbn [map py.min]. rewrite Hm0.
  assert (H : forall x,
             exists m,
               fold_left (fun m y => match y, m with
                                     | Some a, Some b => if (a <? b)%Z then y else m
                                     | _, _ => m
                                     end) (map pd.series_min cols) (Some x) = Some m /\
               (m <= x)%Z /\ Forall (Forall (fun y => (m <= y)%Z)) cols).
  { clear - Hcols. induction Hcols as [|c cols Hc _ IH]; intros x.
    - exists x. simpl. repeat split; [lia|constructor].
    - destruct (series_min_spec c Hc) as (mc & Hmc & Hlec).
      cbn [map fold_left]. rewrite Hmc.
      destruct (Z.ltb_spec mc x).
      + destruct (IH mc) as (m & Hm & Hle & Hall). exists m.
        split; [exact Hm|]. split; [lia|]. constructor; auto.
        eapply Forall_impl; [|exact Hlec]. cbv beta. intros; lia.
      + destruct (IH x) as (m & Hm & Hle & Hall). exists m.
        split; [exact Hm|]. split; [lia|]. constructor; auto.
        eapply Forall_impl; [|exact Hlec]. cbv beta. intros; lia. }
  destruct (H m0) as (m & Hm & Hle & Hall). exists m.
  split; [now rewrite Hm|]. constructor; auto.
  eapply Forall_impl; [|exact Hle0]. cbv beta. intros; lia.
Qed.

Lemma py_max_spec (cols : list (list Z)) :
  cols <> [] -> Forall (fun l => l <> []) cols ->
  exists m, py.max (map pd.series_max cols) = Ok (Some m) /\
            Forall (Forall (fun y => (y <= m)%Z)) cols.
Proof.
  destruct cols as [|c cols]; [congruence|]. intros _ Hne.
  inversion Hne as [|? ? Hc Hcols]; subst.
  destruct (series_max_spec c Hc) as (m0 & Hm0 & Hle0).
  cbn [map py.max]. rewrite Hm0.
  assert (H : forall x,
             exists m,
               fold_left (fun m y => match y, m with
                                     | Some a, Some b => if (b <? a)%Z then y else m
                                     | _, _ => m
                                     end) (map pd.series_max cols) (Some x) = Some m /\
               (x <= m)%Z /\ Forall (Forall (fun y => (y <= m)%Z)) cols).
  { clear - Hcols. induction Hcols as [|c cols Hc _ IH]; intros x.
    - exists x. simpl. repeat split; [lia|constructor].
    - destruct (series_max_spec c Hc) as (mc & Hmc & Hlec).
      cbn [map fold_left]. rewrite Hmc.
      destruct (Z.ltb_spec x mc).
      + destruct (IH mc) as (m & Hm & Hle & Hall). exists m.
        split; [exact Hm|]. split; [lia|]. constructor; auto.
        eapply Forall_impl; [|exact Hlec]. cbv beta. intros; lia.
      + destruct (IH x) as (m & Hm & Hle & Hall). exists m.
        split; [exact Hm|]. split; [lia|]. constructor; auto.
        eapply Forall_impl; [|exact Hlec]. cbv beta. intros; lia. }
  destruct (H m0) as (m & Hm & Hle & Hall). exists m.
  split; [now rewrite Hm|]. constructor; auto.
  eapply Forall_impl; [|exact Hle0]. cbv beta. intros; lia.
Qed.

Lemma pad_with_zeros_returns (df_list : list DataFrame) (min_delay_bound : Z) :
  df_list <> [] ->
  Forall (fun df => df <> [] /\ NoDup (pd.col_delay df)) df_list ->
  exists B,
    (min_delay_bound <= B)%Z /\
    utils.pad_with_zeros df_list min_delay_bound
    = Ok (map (on_axis (np.arange (- B) (B + 1))) df_list) /\
    (forall df d, In df df_list -> In d (pd.col_delay df) -> (- B <= d <= B)%Z).
Proof.
  intros Hne Hall. unfold utils.pad_with_zeros.
  assert (Hcols : map pd.col_delay df_list <> [])
    by (destruct df_list; [congruence|discriminate]).
  assert (Hcne : Forall (fun l => l <> []) (map pd.col_delay df_list)).
  { apply Forall_map. eapply Forall_impl; [|exact Hall].
    intros df [Hdf _] E. apply Hdf. unfold pd.col_delay in E.
    now apply map_eq_nil in E. }
  destruct (py_min_spec _ Hcols Hcne) as (lo & Hlo & Hlole).
  destruct (py_max_spec _ Hcols Hcne) as (hi & Hhi & Hhile).
  rewrite map_map in Hlo, Hhi. rewrite Hlo. cbn [bind py.math_floor].
  rewrite Hhi. cbn [bind py.math_ceil py.math_floor].
  exists (Z.max (Z.max hi (- lo)) min_delay_bound).
  split; [lia|]. split.
  - f_equal. apply map_ext_in. intros df Hdf.
    apply merge_left_fillna0_on_axis.
    rewrite Forall_forall in Hall. now apply Hall.
  - intros df d Hdf Hd.
    rewrite Forall_map, Forall_forall in Hlole, Hhile.
    specialize (Hlole df Hdf). specialize (Hhile df Hdf).
    rewrite Forall_forall in Hlole, Hhile.
    specialize (Hlole d Hd). specialize (Hhile d Hd). lia.
Qed.

(** X7: on a list of frames none of which is empty and each with one row
    per delay, [pad_with_zeros] returns the frames merged onto one common
    axis from [-B] to [B].  [B] is at least [min_delay_bound], every delay
    of every frame lies on the axis, so that no row is dropped, and the
    frequencies that the merge adds are 0. *)
Theorem pad_with_zeros_axis (df_list : list DataFrame) (min_delay_bound : Z) :
  df_list <> [] ->
  Forall (fun df => df <> [] /\ NoDup (pd.col_delay df)) df_list ->
  exists B,
    (min_delay_bound <= B)%Z /\
    utils.pad_with_zeros df_list min_delay_bound
    = Ok (map (on_axis (np.arange (- B) (B + 1))) df_list) /\
    (forall df d, In df df_list -> In d (pd.col_delay df) -> (- B <= d <= B)%Z) /\
    (forall df d, In df df_list -> ~ In d (pd.col_delay df) -> frequency_at df d = 0%f).
Proof.
  intros Hne Hall.
  destruct (pad_with_zeros_returns df_list min_delay_bound Hne Hall)
    as (B & HB & Hret & Hin).
  exists B. split; [exact HB|]. split; [exact Hret|]. split; [exact Hin|].
  intros df d _. apply frequency_at_absent.
Qed.

Lemma pad_with_zeros_axis_witness :
  exists B,
    (2 <= B)%Z /\
    utils.pad_with_zeros [to_frame ex.now; to_frame ex.after] 2
    = Ok (map (on_axis (np.arange (- B) (B + 1))) [to_frame ex.now; to_frame ex.after]) /\
    (forall df d, In df [to_frame ex.now; to_frame ex.after] ->
                  In d (pd.col_delay df) -> (- B <= d <= B)%Z) /\
    (forall df d, In df [to_frame ex.now; to_frame ex.after] ->
                  ~ In d (pd.col_delay df) -> frequency_at df d = 0%f).
Proof.
  apply pad_with_zeros_axis.
  - discriminate.
  - repeat constructor; simpl; try discriminate; intuition lia.
Defined.

Lemma lookup_frequency_on_axis (ax : list Z) (g : Z -> Qc) (d : Z) :
  lookup_frequency (map (fun x => (x, g x)) ax) d
  = if in_dec Z.eq_dec d ax then g d else 0%Qc.
Proof.
  unfold lookup_frequency. induction ax as [|x ax IH]; [reflexivity|].
  cbn [map find fst]. destruct (Z.eqb_spec x d) as [->|Hne].
  - cbn [snd]. destruct (in_dec Z.eq_dec d (d :: ax)) as [|n]; auto.
    exfalso. apply n. now left.
  - rewrite IH. destruct (in_dec Z.eq_dec d ax) as [i|n];
      destruct (in_dec Z.eq_dec d (x :: ax)) as [i'|n']; auto.
    + exfalso. apply n'. now right.
    + destruct i'; [congruence|contradiction].
Qed.

(** X8: on finite tables, none empty and each with one row per delay,
    [pad_with_zeros] changes no frequency: each returned table has, at
    every delay, the frequency of the table it comes from (0 where that
    table has no row), and therefore the same total. *)
Theorem pad_with_zeros_keeps_frequencies (tables : list pmf) (min_delay_bound : Z) :
  tables <> [] ->
  Forall (fun p => p <> [] /\ NoDup (axis p)) tables ->
  exists B,
    utils.pad_with_zeros (map to_frame tables) min_delay_bound
    = Ok (map (fun p => to_frame (pmf_on_axis (np.arange (- B) (B + 1)) p)) tables) /\
    forall p, In p tables ->
              (forall d, lookup_frequency (pmf_on_axis (np.arange (- B) (B + 1)) p) d
                         = lookup_frequency p d) /\
              total (pmf_on_axis (np.arange (- B) (B + 1)) p) = total p.
Proof.
  intros Hne Hall.
  assert (Hdelay : forall p, pd.col_delay (to_frame p) = axis p).
  { intros p. unfold pd.col_delay, to_frame, axis. rewrite map_map. reflexivity. }
  destruct (pad_with_zeros_returns (map to_frame tables) min_delay_bound)
    as (B & HB & Hret & Hin).
  - destruct tables; [congruence|discriminate].
  - apply Forall_map. eapply Forall_impl; [|exact Hall].
    intros p [Hp Hnd]. split.
    + intros E. apply Hp. unfold to_frame in E. now apply map_eq_nil in E.
    + now rewrite Hdelay.
  - exists B. split.
    + rewrite Hret, map_map. f_equal. apply map_ext. intros p.
      apply on_axis_to_frame.
    + intros p Hp.
      assert (Hincl : forall d, In d (axis p) -> In d (np.arange (- B) (B + 1))).
      { intros d Hd. apply arange_In.
        assert (- B <= d <= B)%Z; [|lia].
        apply (Hin (to_frame p)); [now apply in_map|now rewrite Hdelay]. }
      split.
      * intros d. unfold pmf_on_axis. rewrite lookup_frequency_on_axis.
        destruct (in_dec Z.eq_dec d (np.arange (- B) (B + 1))) as [|n]; auto.
        symmetry. apply lookup_frequency_absent. intros Hd. apply n. now apply Hincl.
      * apply pmf_on_axis_total; auto using arange_NoDup.
        rewrite Forall_forall in Hall. now apply Hall.
Qed.

Lemma pad_with_zeros_keeps_frequencies_witness :
  exists B,
    utils.pad_with_zeros (map to_frame [ex.now; ex.after]) 2
    = Ok (map (fun p => to_frame (pmf_on_axis (np.arange (- B) (B + 1)) p))
              [ex.now; ex.after]) /\
    forall p, In p [ex.now; ex.after] ->
              (forall d, lookup_frequency (pmf_on_axis (np.arange (- B) (B + 1)) p) d
                         = lookup_frequency p d) /\
              total (pmf_on_axis (np.arange (- B) (B + 1)) p) = total p.
Proof.
  apply pad_with_zeros_keeps_frequencies.
  - discriminate.
  - repeat constructor; simpl; try discriminate; intuition lia.
Defined.

(** ** The time from symptoms to onward infection *)

Lemma fdiv_zero (s : float64) : (0 / s)%f = 0%f \/ (0 / s)%f = NaN.
Proof.
  destruct s as [b| | |]; cbn [fdiv]; auto.
  destruct (Qc_eq_dec b 0); [right; reflexivity|left].
  f_equal. unfold Qcdiv. ring.
Qed.

Lemma col_delay_loc_set_frequency (mask : row -> bool) (x : float64) (df : DataFrame) :
  pd.col_delay (pd.loc_set_frequency mask x df) = pd.col_delay df.
Proof.
  unfold pd.col_delay, pd.loc_set_frequency. rewrite map_map. apply map_ext.
  intros r. now destruct (mask r).
Qed.

Lemma arange_empty (start stop : Z) : (stop <= start)%Z -> np.arange start stop = [].
Proof.
  intros H. unfold np.arange. replace (Z.to_nat (stop - start)) with 0%nat by lia.
  reflexivity.
Qed.

(** The 'he' branch on a delay bound that is not negative: a frame on
    the hours from [-delay_bound] to [delay_bound], its frequencies before
    hour -48 set to 0, divided by a number. *)
Lemma get_symptom_to_onward_vector_he_frame
      (gamma_pdf : Qc -> Qc -> float64)
      (spline : list Qc -> list float64 -> Qc -> float64) (delay_bound : Z) :
  (0 <= delay_bound)%Z ->
  exists df0 s,
    parameters.get_symptom_to_onward_vector gamma_pdf spline delay_bound "he"
    = Ok (pd.div_frequency
            (pd.loc_set_frequency (fun r => (delay r <? -2 * 24)%Z) 0%f df0) s) /\
    pd.col_delay df0 = np.arange (- delay_bound) (delay_bound + 1).
Proof.
  intros HB. rewrite get_symptom_to_onward_vector_he.
  destruct (gamma_frame_on_axis gamma_pdf (dec 518 100) (dec 96 100) delay_bound)
    as (d1 & H1 & _).
  destruct (gamma_frame_on_axis gamma_pdf (dec 423 100) (dec 81 100) delay_bound)
    as (d2 & H2 & _).
  unfold parameters.get_serial_interval, parameters.get_incubation_period.
  rewrite H1, H2. cbn [bind].
  set (ax := np.arange (- delay_bound) (delay_bound + 1)).
  assert (Hax : length ax = Z.to_nat (2 * delay_bound + 1)).
  { unfold ax. rewrite length_arange. f_equal. lia. }
  destruct (convolve_same_returns (pd.col_frequency (on_axis ax d1))
                                  (rev (pd.col_frequency (on_axis ax d2))))
    as (out & Hout & Hlen).
  { rewrite length_rev, !length_col_frequency, !length_on_axis. lia. }
  { rewrite length_rev, length_col_frequency, length_on_axis. lia. }
  rewrite Hout. cbn [bind]. cbv zeta.
  destruct (DataFrame_of_returns (pd.col_delay (on_axis ax d1))
                                 (np.div_scalar out (np.sum out)))
    as (df & Hdf & _).
  { unfold np.div_scalar. rewrite length_map, Hlen, length_col_delay,
      length_col_frequency. reflexivity. }
  rewrite Hdf. cbn [bind]. eexists _, _. split; [reflexivity|].
  apply DataFrame_of_columns in Hdf. destruct Hdf as [-> _].
  apply col_delay_on_axis.
Qed.

Lemma get_symptom_to_onward_vector_he_returns
      (gamma_pdf : Qc -> Qc -> float64)
      (spline : list Qc -> list float64 -> Qc -> float64) (delay_bound : Z) :
  (0 <= delay_bound)%Z ->
  exists df,
    parameters.get_symptom_to_onward_vector gamma_pdf spline delay_bound "he" = Ok df /\
    pd.col_delay df = np.arange (- delay_bound) (delay_bound + 1).
Proof.
  intros HB.
  destruct (get_symptom_to_onward_vector_he_frame gamma_pdf spline delay_bound HB)
    as (df0 & s & Hdf & Hax).
  eexists. split; [exact Hdf|].
  rewrite col_delay_div_frequency, col_delay_loc_set_frequency. exact Hax.
Qed.

(** The 'he' branch on a negative delay bound: the two gamma tables are
    empty and [numpy.convolve] raises. *)
Lemma get_symptom_to_onward_vector_he_raises
      (gamma_pdf : Qc -> Qc -> float64)
      (spline : list Qc -> list float64 -> Qc -> float64) (delay_bound : Z) :
  (delay_bound < 0)%Z ->
  parameters.get_symptom_to_onward_vector gamma_pdf spline delay_bound "he"
  = Raise ValueError.
Proof.
  intros HB. rewrite get_symptom_to_onward_vector_he.
  destruct (gamma_frame_on_axis gamma_pdf (dec 518 100) (dec 96 100) delay_bound)
    as (d1 & H1 & _).
  destruct (gamma_frame_on_axis gamma_pdf (dec 423 100) (dec 81 100) delay_bound)
    as (d2 & H2 & _).
  unfold parameters.get_serial_interval, parameters.get_incubation_period.
  rewrite H1, H2. cbn [bind].
  rewrite arange_empty by lia. reflexivity.
Qed.

Lemma interp1d_cubic_returns
      (spline : list Qc -> list float64 -> Qc -> float64)
      (x : list Qc) (y : list float64) (lo hi : Qc) :
  length x = length y -> (4 <= length x)%nat ->
  scipy.Qc_min_list x = Ok lo -> scipy.Qc_max_list x = Ok hi ->
  scipy.interp1d_cubic spline x y
  = Ok (fun ts =>
          if forallb (fun t => scipy.Qc_leb lo t && scipy.Qc_leb t hi) ts
          then Ok (map (spline x y) ts)
          else Raise ValueError).
Proof.
  intros Hlen H4 Hlo Hhi. unfold scipy.interp1d_cubic.
  rewrite Hlen, Nat.eqb_refl. cbn [negb]. rewrite <- Hlen.
  destruct (Nat.ltb_spec (length x) 4) as [|_]; [lia|].
  rewrite Hlo, Hhi. reflexivity.
Qed.

Lemma get_symptom_to_onward_vector_ashcroft
      (gamma_pdf : Qc -> Qc -> float64)
      (spline : list Qc -> list float64 -> Qc -> float64) (delay_bound : Z) :
  parameters.get_symptom_to_onward_vector gamma_pdf spline delay_bound "ashcroft"
  = (let coarse_delay := map (fun i => (-5 * 24 + 24 * Z.of_nat i)%Z) (seq 0 16) in
     let fine_delay := np.arange (-5 * 24) (10 * 24 + 1) in
     f <- scipy.interp1d_cubic spline (map (fun d => Q2Qc (inject_Z d)) coarse_delay)
                               parameters.coarse_infectiousness ;;
     symptom_to_onward <- f (map (fun d => Q2Qc (inject_Z d)) fine_delay) ;;
     symptom_to_onward_data <- pd.DataFrame_of fine_delay symptom_to_onward ;;
     let symptom_to_onward_data :=
       pd.div_frequency symptom_to_onward_data
                        (pd.sum (pd.col_frequency symptom_to_onward_data)) in
     let delay_padded := np.arange (- delay_bound) (delay_bound + 1) in
     Ok (pd.merge_left_fillna0 delay_padded symptom_to_onward_data)).
Proof. reflexivity. Qed.

(** The hours of the fine axis lie between the first and the last day of
    the published curve. *)
Lemma ashcroft_hours_in_range :
  forallb (fun t => scipy.Qc_leb (Q2Qc (inject_Z (-5 * 24))) t
                    && scipy.Qc_leb t (Q2Qc (inject_Z (10 * 24))))
          (map (fun d => Q2Qc (inject_Z d)) (np.arange (-5 * 24) (10 * 24 + 1))) = true.
Proof.
  apply forallb_forall. intros t Ht. apply in_map_iff in Ht.
  destruct Ht as (d & <- & Hd). apply arange_In in Hd.
  apply andb_true_iff. unfold scipy.Qc_leb. rewrite !Qle_bool_iff.
  cbn [this Q2Qc]. rewrite !Qred_correct, <- !Zle_Qle. lia.
Qed.

(** The 'ashcroft' branch, for every delay bound: a frame on the hours
    of the curve, from -120 to 240, merged onto the hours from
    [-delay_bound] to [delay_bound]. *)
Lemma get_symptom_to_onward_vector_ashcroft_frame
      (gamma_pdf : Qc -> Qc -> float64)
      (spline : list Qc -> list float64 -> Qc -> float64) (delay_bound : Z) :
  exists df0,
    parameters.get_symptom_to_onward_vector gamma_pdf spline delay_bound "ashcroft"
    = Ok (on_axis (np.arange (- delay_bound) (delay_bound + 1)) df0) /\
    pd.col_delay df0 = np.arange (-5 * 24) (10 * 24 + 1).
Proof.
  rewrite get_symptom_to_onward_vector_ashcroft. cbv zeta.
  rewrite (interp1d_cubic_returns spline _ _
             (Q2Qc (inject_Z (-5 * 24))) (Q2Qc (inject_Z (10 * 24))));
    [|reflexivity|cbn; lia|vm_compute; reflexivity|vm_compute; reflexivity].
  cbn [bind]. rewrite ashcroft_hours_in_range. cbn [bind].
  match goal with
  | |- context [pd.DataFrame_of ?d ?f] =>
      destruct (DataFrame_of_returns d f) as (df0 & Hdf0 & _)
  end.
  { now rewrite !length_map. }
  rewrite Hdf0. cbn [bind].
  apply DataFrame_of_columns in Hdf0. destruct Hdf0 as [Hd _].
  rewrite merge_left_fillna0_on_axis
    by (rewrite col_delay_div_frequency, Hd; apply arange_NoDup).
  eexists. split; [reflexivity|].
  rewrite col_delay_div_frequency. exact Hd.
Qed.

Lemma get_symptom_to_onward_vector_ashcroft_returns
      (gamma_pdf : Qc -> Qc -> float64)
      (spline : list Qc -> list float64 -> Qc -> float64) (delay_bound : Z) :
  exists df,
    parameters.get_symptom_to_onward_vector gamma_pdf spline delay_bound "ashcroft"
    = Ok df /\
    pd.col_delay df = np.arange (- delay_bound) (delay_bound + 1).
Proof.
  destruct (get_symptom_to_onward_vector_ashcroft_frame gamma_pdf spline delay_bound)
    as (df0 & Hdf & _).
  eexists. split; [exact Hdf|]. apply col_delay_on_axis.
Qed.

Lemma get_symptom_to_onward_vector_other
      (gamma_pdf : Qc -> Qc -> float64)
      (spline : list Qc -> list float64 -> Qc -> float64)
      (delay_bound : Z) (option : string) :
  option <> "he"%string -> option <> "ashcroft"%string ->
  parameters.get_symptom_to_onward_vector gamma_pdf spline delay_bound option
  = Raise UnboundLocalError.
Proof.
  intros H1 H2. unfold parameters.get_symptom_to_onward_vector.
  apply String.eqb_neq in H1, H2. rewrite H1, H2. reflexivity.
Qed.

(** X9: [get_symptom_to_onward_vector] returns a frame exactly for the
    option 'he' with a delay bound that is not negative and for the option
    'ashcroft'.  With 'he' and a negative bound it raises [ValueError]
    (the tables are empty and [numpy.convolve] refuses them); with any
    other option it raises [UnboundLocalError], the variable that it
    returns never being assigned. *)
Theorem get_symptom_to_onward_vector_returns_iff
        (gamma_pdf : Qc -> Qc -> float64)
        (spline : list Qc -> list float64 -> Qc -> float64)
        (delay_bound : Z) (option : string) :
  ((exists df,
       parameters.get_symptom_to_onward_vector gamma_pdf spline delay_bound option = Ok df)
   <-> (option = "he"%string /\ (0 <= delay_bound)%Z) \/ option = "ashcroft"%string) /\
  (forall e,
      parameters.get_symptom_to_onward_vector gamma_pdf spline delay_bound option = Raise e ->
      e = if String.eqb option "he" then ValueError else UnboundLocalError).
Proof.
  destruct (String.eqb_spec option "he") as [->|Hhe].
  - destruct (Z_le_gt_dec 0 delay_bound) as [HB|HB].
    + destruct (get_symptom_to_onward_vector_he_returns gamma_pdf spline delay_bound HB)
        as (df & Hdf & _).
      split.
      * split; [auto|]. intros _. now exists df.
      * intros e He. rewrite Hdf in He. discriminate.
    + assert (Hr := get_symptom_to_onward_vector_he_raises gamma_pdf spline delay_bound).
      rewrite Hr by lia. split.
      * split; [intros [df Hdf]; discriminate|].
        intros [[_ H]|H]; [lia|discriminate].
      * intros e [= <-]. reflexivity.
  - destruct (String.eqb_spec option "ashcroft") as [->|Hash].
    + destruct (get_symptom_to_onward_vector_ashcroft_returns gamma_pdf spline delay_bound)
        as (df & Hdf & _).
      split.
      * split; [auto|]. intros _. now exists df.
      * intros e He. rewrite Hdf in He. discriminate.
    + rewrite get_symptom_to_onward_vector_other by assumption. split.
      * split; [intros [df Hdf]; discriminate|].
        intros [[H _]|H]; contradiction.
      * intros e [= <-]. reflexivity.
Qed.

(** X10: with the option 'he' and a delay bound that is not negative, the
    returned frame is on the hours from [-delay_bound] to [delay_bound],
    and no frequency earlier than two days before the onset of symptoms is
    positive: it is 0, or NaN when the division by the sum of the column
    gave NaN. *)
Theorem get_symptom_to_onward_vector_he_two_days
        (gamma_pdf : Qc -> Qc -> float64)
        (spline : list Qc -> list float64 -> Qc -> float64) (delay_bound : Z) :
  (0 <= delay_bound)%Z ->
  exists df,
    parameters.get_symptom_to_onward_vector gamma_pdf spline delay_bound "he" = Ok df /\
    pd.col_delay df = np.arange (- delay_bound) (delay_bound + 1) /\
    forall r, In r df -> (delay r < -2 * 24)%Z ->
              frequency r = 0%f \/ frequency r = NaN.
Proof.
  intros HB.
  destruct (get_symptom_to_onward_vector_he_frame gamma_pdf spline delay_bound HB)
    as (df0 & s & Hdf & Hax).
  eexists. split; [exact Hdf|]. split.
  - rewrite col_delay_div_frequency, col_delay_loc_set_frequency. exact Hax.
  - intros r Hr Hlt. unfold pd.div_frequency in Hr. apply in_map_iff in Hr.
    destruct Hr as (r0 & <- & Hr0). cbn [delay frequency] in *.
    unfold pd.loc_set_frequency in Hr0. apply in_map_iff in Hr0.
    destruct Hr0 as (r1 & <- & _).
    destruct (Z.ltb_spec (delay r1) (-2 * 24)) as [_|Hge].
    + cbn [frequency]. apply fdiv_zero.
    + exfalso. lia.
Qed.

Lemma get_symptom_to_onward_vector_he_two_days_witness :
  exists df,
    parameters.get_symptom_to_onward_vector ex.flat_pdf ex.flat_spline 50 "he" = Ok df /\
    pd.col_delay df = np.arange (- 50) (50 + 1) /\
    forall r, In r df -> (delay r < -2 * 24)%Z ->
              frequency r = 0%f \/ frequency r = NaN.
Proof.
  apply get_symptom_to_onward_vector_he_two_days. lia.
Defined.

(** X11: with the option 'ashcroft' the function returns, for every delay
    bound, a frame on the hours from [-delay_bound] to [delay_bound] whose
    frequency is 0 before day -5 and after day 10, the range of the
    published curve, and is never NaN. *)
Theorem get_symptom_to_onward_vector_ashcroft_support
        (gamma_pdf : Qc -> Qc -> float64)
        (spline : list Qc -> list float64 -> Qc -> float64) (delay_bound : Z) :
  exists df,
    parameters.get_symptom_to_onward_vector gamma_pdf spline delay_bound "ashcroft"
    = Ok df /\
    pd.col_delay df = np.arange (- delay_bound) (delay_bound + 1) /\
    (forall r, In r df -> (delay r < -5 * 24 \/ 10 * 24 < delay r)%Z ->
               frequency r = 0%f) /\
    (forall r, In r df -> frequency r <> NaN).
Proof.
  destruct (get_symptom_to_onward_vector_ashcroft_frame gamma_pdf spline delay_bound)
    as (df0 & Hdf & Hd0).
  eexists. split; [exact Hdf|]. split; [apply col_delay_on_axis|]. split.
  - intros r Hr Hout. unfold on_axis in Hr. apply in_map_iff in Hr.
    destruct Hr as (d & <- & _). cbn [delay frequency] in *.
    apply frequency_at_absent. rewrite Hd0, arange_In. lia.
  - intros r Hr. unfold on_axis in Hr. apply in_map_iff in Hr.
    destruct Hr as (d & <- & _). cbn [frequency]. apply frequency_at_not_NaN.
Qed.

(** ** The bundle of time distributions *)

Lemma process_TT_e2e_file_axis
      (spline : list Qc -> list float64 -> Qc -> float64)
      (e2e : list ((Qc * Qc) * float64)) (df : DataFrame) :
  utils.process_TT_e2e_file spline e2e = Ok df ->
  exists start stop, pd.col_delay df = np.arange start stop.
Proof.
  unfold utils.process_TT_e2e_file. intros H.
  apply bind_Ok in H. destruct H as (lo & _ & H).
  apply bind_Ok in H. destruct H as (hi & _ & H).
  apply bind_Ok in H. destruct H as (f & _ & H).
  apply bind_Ok in H. destruct H as (fr & _ & H).
  apply bind_Ok in H. destruct H as (d0 & Hd0 & H).
  injection H as <-. exists (Qceiling lo), (Qfloor hi).
  rewrite col_delay_div_frequency.
  now apply DataFrame_of_columns in Hd0.
Qed.

Lemma fold_left_max_In (l : list Z) (x : Z) : In (fold_left Z.max l x) (x :: l).
Proof.
  revert x. induction l as [|y l IH]; intros x; [now left|].
  cbn [fold_left]. destruct (IH (Z.max x y)) as [H|H]; [|right; right; exact H].
  rewrite <- H.
  destruct (Z.max_spec x y) as [[_ E]|[_ E]]; rewrite E; [right; left|left]; reflexivity.
Qed.

Lemma series_max_arange (start stop : Z) :
  (start < stop)%Z -> pd.series_max (np.arange start stop) = Some (stop - 1)%Z.
Proof.
  intros H.
  assert (Hne : np.arange start stop <> []).
  { intros E. apply (f_equal (@length Z)) in E. rewrite length_arange in E.
    simpl in E. lia. }
  destruct (series_max_spec _ Hne) as (m & Hm & Hle). rewrite Hm. f_equal.
  assert (Hin : In m (np.arange start stop)).
  { destruct (np.arange start stop) as [|x l]; [congruence|].
    injection Hm as <-. apply fold_left_max_In. }
  apply arange_In in Hin. rewrite Forall_forall in Hle.
  specialize (Hle (stop - 1)%Z). rewrite arange_In in Hle. lia.
Qed.

Lemma length_of_col_delay (df : DataFrame) (ax : list Z) :
  pd.col_delay df = ax -> length df = length ax.
Proof. intros <-. now rewrite length_col_delay. Qed.

(** [calculate_time_distributions] on two tables that
    [process_TT_e2e_file] turns into frames with at least one row. *)
Lemma calculate_time_distributions_returns
      (gamma_pdf : Qc -> Qc -> float64)
      (spline : list Qc -> list float64 -> Qc -> float64)
      (e2e_file target_e2e_file : list ((Qc * Qc) * float64))
      (infectiousness_option : string) (e2e_df target_e2e_df : DataFrame) :
  utils.process_TT_e2e_file spline e2e_file = Ok e2e_df -> e2e_df <> [] ->
  utils.process_TT_e2e_file spline target_e2e_file = Ok target_e2e_df ->
  target_e2e_df <> [] ->
  infectiousness_option = "he"%string \/ infectiousness_option = "ashcroft"%string ->
  exists B td,
    (40 * 24 <= B)%Z /\
    parameters.calculate_time_distributions gamma_pdf spline e2e_file target_e2e_file
                                            infectiousness_option = Ok td /\
    parameters.infectiousness_option td = infectiousness_option /\
    parameters.total_time_to_contact td = on_axis (np.arange (- B) (B + 1)) e2e_df /\
    parameters.target_total_time_to_contact td
    = on_axis (np.arange (- B) (B + 1)) target_e2e_df /\
    pd.col_delay (parameters.secondary_symptoms_to_tertiary td) = np.arange (- B) (B + 1) /\
    pd.col_delay (parameters.serial_interval td) = np.arange (- B) (B + 1) /\
    pd.col_delay (parameters.time_to_tertiary_infection td) = np.arange (- B) (B + 1) /\
    parameters.get_time_to_tertiary_infection
      (parameters.secondary_symptoms_to_tertiary td) (parameters.serial_interval td)
    = Ok (parameters.time_to_tertiary_infection td) /\
    (forall d, In d (pd.col_delay e2e_df) \/ In d (pd.col_delay target_e2e_df) ->
               (- B <= d <= B)%Z).
Proof.
  intros He Hene Ht Htne Hopt.
  destruct (process_TT_e2e_file_axis _ _ _ He) as (a1 & b1 & Hax1).
  destruct (process_TT_e2e_file_axis _ _ _ Ht) as (a2 & b2 & Hax2).
  destruct (pad_with_zeros_returns [target_e2e_df; e2e_df] (40 * 24))
    as (B & HB & Hpad & Hin).
  { discriminate. }
  { repeat constructor; auto.
    - rewrite Hax2. apply arange_NoDup.
    - rewrite Hax1. apply arange_NoDup. }
  exists B.
  unfold parameters.calculate_time_distributions.
  rewrite He, Ht. cbn [bind]. rewrite Hpad. cbn [bind map].
  rewrite col_delay_on_axis, series_max_arange by lia.
  replace (B + 1 - 1)%Z with B by lia.
  assert (Hs2t : exists s2t,
             parameters.get_symptom_to_onward_vector gamma_pdf spline B
                                                     infectiousness_option = Ok s2t /\
             pd.col_delay s2t = np.arange (- B) (B + 1)).
  { destruct Hopt as [-> | ->].
    - destruct (get_symptom_to_onward_vector_he_returns gamma_pdf spline B)
        as (s2t & H1 & H2); [lia|]. exists s2t. split; assumption.
    - destruct (get_symptom_to_onward_vector_ashcroft_returns gamma_pdf spline B)
        as (s2t & H1 & H2). exists s2t. split; assumption. }
  destruct Hs2t as (s2t & Hs2t & Hs2tax). rewrite Hs2t. cbn [bind].
  destruct (gamma_frame_on_axis gamma_pdf (dec 518 100) (dec 96 100) B)
    as (d1 & Hsi & _).
  unfold parameters.get_serial_interval. rewrite Hsi. cbn [bind].
  assert (Hlen : length (np.arange (- B) (B + 1)) = Z.to_nat (2 * B + 1)).
  { rewrite length_arange. f_equal. lia. }
  destruct (get_time_to_tertiary_infection_returns
              s2t (on_axis (np.arange (- B) (B + 1)) d1))
    as (t3 & Ht3 & _).
  { rewrite length_on_axis, (length_of_col_delay _ _ Hs2tax). lia. }
  { rewrite length_on_axis. lia. }
  rewrite Ht3. cbn [bind].
  eexists. split; [exact HB|]. split; [reflexivity|].
  cbn [parameters.infectiousness_option parameters.total_time_to_contact
       parameters.target_total_time_to_contact parameters.secondary_symptoms_to_tertiary
       parameters.serial_interval parameters.time_to_tertiary_infection].
  split; [reflexivity|]. split; [reflexivity|]. split; [reflexivity|].
  split; [exact Hs2tax|]. split; [apply col_delay_on_axis|].
  split; [rewrite (get_time_to_tertiary_infection_axis _ _ _ Ht3); exact Hs2tax|].
  split; [exact Ht3|].
  intros d [Hd|Hd].
  - apply (Hin e2e_df); [right; left; reflexivity|exact Hd].
  - apply (Hin target_e2e_df); [left; reflexivity|exact Hd].
Qed.

(** X12: when [process_TT_e2e_file] gives a frame with at least one row
    for each of the two files and the option is 'he' or 'ashcroft',
    [calculate_time_distributions] returns a bundle in which all five
    tables are on one hourly axis from [-B] to [B], with [B] at least 960
    (40 days), and in which [time_to_tertiary_infection] is the table that
    [get_time_to_tertiary_infection] gives for the bundle's
    [secondary_symptoms_to_tertiary] and [serial_interval]. *)
Theorem calculate_time_distributions_aligned
        (gamma_pdf : Qc -> Qc -> float64)
        (spline : list Qc -> list float64 -> Qc -> float64)
        (e2e_file target_e2e_file : list ((Qc * Qc) * float64))
        (infectiousness_option : string) :
  (exists df, utils.process_TT_e2e_file spline e2e_file = Ok df /\ df <> []) ->
  (exists df, utils.process_TT_e2e_file spline target_e2e_file = Ok df /\ df <> []) ->
  infectiousness_option = "he"%string \/ infectiousness_option = "ashcroft"%string ->
  exists B td,
    (40 * 24 <= B)%Z /\
    parameters.calculate_time_distributions gamma_pdf spline e2e_file target_e2e_file
                                            infectiousness_option = Ok td /\
    Forall (fun df => pd.col_delay df = np.arange (- B) (B + 1))
           [ parameters.total_time_to_contact td;
             parameters.target_total_time_to_contact td;
             parameters.secondary_symptoms_to_tertiary td;
             parameters.serial_interval td;
             parameters.time_to_tertiary_infection td ] /\
    parameters.get_time_to_tertiary_infection
      (parameters.secondary_symptoms_to_tertiary td) (parameters.serial_interval td)
    = Ok (parameters.time_to_tertiary_infection td).
Proof.
  intros (e2e_df & He & Hene) (target_e2e_df & Ht & Htne) Hopt.
  destruct (calculate_time_distributions_returns
              gamma_pdf spline e2e_file target_e2e_file infectiousness_option
              e2e_df target_e2e_df He Hene Ht Htne Hopt)
    as (B & td & HB & Htd & _ & Hc & Htc & Hs2t & Hsi & Ht3 & Hcons & _).
  exists B, td. split; [exact HB|]. split; [exact Htd|]. split; [|exact Hcons].
  repeat constructor; auto.
  - rewrite Hc. apply col_delay_on_axis.
  - rewrite Htc. apply col_delay_on_axis.
Qed.

Lemma process_TT_e2e_file_ex :
  exists df, utils.process_TT_e2e_file ex.flat_spline ex.e2e = Ok df /\ df <> [].
Proof.
  destruct (utils.process_TT_e2e_file ex.flat_spline ex.e2e) as [df|] eqn:E;
    [|vm_compute in E; discriminate].
  exists df. split; [reflexivity|].
  intros ->. vm_compute in E. discriminate.
Defined.

Lemma calculate_time_distributions_aligned_witness :
  exists B td,
    (40 * 24 <= B)%Z /\
    parameters.calculate_time_distributions ex.flat_pdf ex.flat_spline ex.e2e ex.e2e
                                            "he" = Ok td /\
    Forall (fun df => pd.col_delay df = np.arange (- B) (B + 1))
           [ parameters.total_time_to_contact td;
             parameters.target_total_time_to_contact td;
             parameters.secondary_symptoms_to_tertiary td;
             parameters.serial_interval td;
             parameters.time_to_tertiary_infection td ] /\
    parameters.get_time_to_tertiary_infection
      (parameters.secondary_symptoms_to_tertiary td) (parameters.serial_interval td)
    = Ok (parameters.time_to_tertiary_infection td).
Proof.
  apply calculate_time_distributions_aligned.
  - exact process_TT_e2e_file_ex.
  - exact process_TT_e2e_file_ex.
  - left. reflexivity.
Defined.

(** ** The loop over the scenarios *)

(** The record that [TT_model_rum] returns has the thirteen keys of its
    literal. *)
Lemma TT_model_rum_dict_keys (sar sr pn ct cnt cc : float64)
      (si s2t t3 c : DataFrame) (output : dict) :
  model.TT_model_rum sar sr pn ct cnt cc si s2t t3 c = Ok output ->
  exists v1 v2 v3 v4 v5 v6 v7 v8 v9 v10 v11 v12 v13,
    output = [ ("primary_tested", v1);
               ("adherence_symptom_isolation", v2);
               ("adherence_symptom_isolation_impact", v3);
               ("symptom_isolation_success", v4);
               ("proportion_contacts_reached", v5);
               ("proportion_contacts_reached_compliant", v6);
               ("adherence_contact_isolation_impact", v7);
               ("contact_isolation_success", v8);
               ("transmission_pre_contact", v9);
               ("transmission_occuring_pre_symptom", v10);
               ("transmission_averted", v11);
               ("marginal_impact", v12);
               ("symptom_and_contact_success", v13) ]%string.
Proof.
  unfold model.TT_model_rum. intros H.
  apply bind_Ok in H. destruct H as (impact & _ & H).
  apply bind_Ok in H. destruct H as (sacs & _ & H).
  injection H as <-. do 13 eexists. reflexivity.
Qed.

(** The merged record of one scenario: the eight parameters of the row,
    then the metrics. *)
Lemma run_scenario_unfold (td : parameters.time_distributions) (row : run.scenario) :
  run.run_scenario td row
  = (output <- model.TT_model_rum
                 (run.symptomatic_ascertainment_rate row)
                 (run.symptomatic_rate row)
                 (run.percentage_notified row)
                 (run.compliance_with_symptom_isolation_test row)
                 (run.compliance_with_symptom_isolation_no_test row)
                 (run.contact_compliance_with_isolation row)
                 (parameters.serial_interval td)
                 (parameters.secondary_symptoms_to_tertiary td)
                 (parameters.time_to_tertiary_infection td)
                 (if String.eqb (run.Distribution row) "October Distribution"
                  then parameters.total_time_to_contact td
                  else parameters.target_total_time_to_contact td) ;;
     Ok ([ ("Scenario", run.Text (run.Scenario row));
           ("symptomatic_ascertainment_rate",
            run.Number (run.symptomatic_ascertainment_rate row));
           ("symptomatic_rate", run.Number (run.symptomatic_rate row));
           ("percentage_notified", run.Number (run.percentage_notified row));
           ("compliance_with_symptom_isolation_test",
            run.Number (run.compliance_with_symptom_isolation_test row));
           ("compliance_with_symptom_isolation_no_test",
            run.Number (run.compliance_with_symptom_isolation_no_test row));
           ("compliance_with_contact_isolation",
            run.Number (run.contact_compliance_with_isolation row));
           ("distribution", run.Text (run.Distribution row)) ]%string
         ++ map (fun p => (fst p, run.Number (snd p))) output)).
Proof.
  unfold run.run_scenario. cbv zeta.
  destruct (model.TT_model_rum
              (run.symptomatic_ascertainment_rate row)
              (run.symptomatic_rate row)
              (run.percentage_notified row)
              (run.compliance_with_symptom_isolation_test row)
              (run.compliance_with_symptom_isolation_no_test row)
              (run.contact_compliance_with_isolation row)
              (parameters.serial_interval td)
              (parameters.secondary_symptoms_to_tertiary td)
              (parameters.time_to_tertiary_infection td)
              (if String.eqb (run.Distribution row) "October Distribution"
               then parameters.total_time_to_contact td
               else parameters.target_total_time_to_contact td))
    as [output|e] eqn:E; [|reflexivity].
  cbn [bind].
  apply TT_model_rum_dict_keys in E.
  destruct E as (v1 & v2 & v3 & v4 & v5 & v6 & v7 & v8 & v9 & v10 & v11 & v12 & v13 & ->).
  reflexivity.
Qed.

(** X13: the record of one scenario, [{**parameter_dict, **output}], is
    the eight parameters as the row gives them followed by the thirteen
    metrics of [TT_model_rum]: no metric overwrites a parameter, the two
    dictionaries having no key in common, and the record has 21 keys.  The
    table of contact tracing delays is the 'October' one when the row's
    distribution is "October Distribution" and the target one for any
    other text.  An error of [TT_model_rum] is passed on. *)
Theorem run_scenario_record (td : parameters.time_distributions) (row : run.scenario) :
  run.run_scenario td row
  = (output <- model.TT_model_rum
                 (run.symptomatic_ascertainment_rate row)
                 (run.symptomatic_rate row)
                 (run.percentage_notified row)
                 (run.compliance_with_symptom_isolation_test row)
                 (run.compliance_with_symptom_isolation_no_test row)
                 (run.contact_compliance_with_isolation row)
                 (parameters.serial_interval td)
                 (parameters.secondary_symptoms_to_tertiary td)
                 (parameters.time_to_tertiary_infection td)
                 (if String.eqb (run.Distribution row) "October Distribution"
                  then parameters.total_time_to_contact td
                  else parameters.target_total_time_to_contact td) ;;
     Ok ([ ("Scenario", run.Text (run.Scenario row));
           ("symptomatic_ascertainment_rate",
            run.Number (run.symptomatic_ascertainment_rate row));
           ("symptomatic_rate", run.Number (run.symptomatic_rate row));
           ("percentage_notified", run.Number (run.percentage_notified row));
           ("compliance_with_symptom_isolation_test",
            run.Number (run.compliance_with_symptom_isolation_test row));
           ("compliance_with_symptom_isolation_no_test",
            run.Number (run.compliance_with_symptom_isolation_no_test row));
           ("compliance_with_contact_isolation",
            run.Number (run.contact_compliance_with_isolation row));
           ("distribution", run.Text (run.Distribution row)) ]%string
         ++ map (fun p => (fst p, run.Number (snd p))) output)) /\
  match run.run_scenario td row with
  | Ok rec =>
      map fst rec
      = [ "Scenario"; "symptomatic_ascertainment_rate"; "symptomatic_rate";
          "percentage_notified"; "compliance_with_symptom_isolation_test";
          "compliance_with_symptom_isolation_no_test";
          "compliance_with_contact_isolation"; "distribution";
          "primary_tested"; "adherence_symptom_isolation";
          "adherence_symptom_isolation_impact"; "symptom_isolation_success";
          "proportion_contacts_reached"; "proportion_contacts_reached_compliant";
          "adherence_contact_isolation_impact"; "contact_isolation_success";
          "transmission_pre_contact"; "transmission_occuring_pre_symptom";
          "transmission_averted"; "marginal_impact";
          "symptom_and_contact_success" ]%string /\
      NoDup (map fst rec)
  | Raise _ => True
  end.
Proof.
  split; [apply run_scenario_unfold|].
  rewrite run_scenario_unfold.
  destruct (model.TT_model_rum
              (run.symptomatic_ascertainment_rate row)
              (run.symptomatic_rate row)
              (run.percentage_notified row)
              (run.compliance_with_symptom_isolation_test row)
              (run.compliance_with_symptom_isolation_no_test row)
              (run.contact_compliance_with_isolation row)
              (parameters.serial_interval td)
              (parameters.secondary_symptoms_to_tertiary td)
              (parameters.time_to_tertiary_infection td)
              (if String.eqb (run.Distribution row) "October Distribution"
               then parameters.total_time_to_contact td
               else parameters.target_total_time_to_contact td))
    as [output|e] eqn:E; [|exact I].
  cbn [bind].
  apply TT_model_rum_dict_keys in E.
  destruct E as (v1 & v2 & v3 & v4 & v5 & v6 & v7 & v8 & v9 & v10 & v11 & v12 & v13 & ->).
  split; [reflexivity|].
  cbn [map app fst].
  repeat (constructor; [cbn [In]; intuition discriminate|]). constructor.
Qed.

(** The loop of [main]: either every row returns and the output is the
    records of the rows, in order, after those it started from, or the
    error is that of the first row that raises. *)
Lemma run_scenarios_cases (td : parameters.time_distributions)
      (scenarios_df : list run.scenario) (output_df : list run.record) :
  match run.run_scenarios td scenarios_df output_df with
  | Ok out =>
      exists recs,
        out = output_df ++ recs /\
        Forall2 (fun row rec => run.run_scenario td row = Ok rec) scenarios_df recs
  | Raise e =>
      exists before row after,
        scenarios_df = before ++ row :: after /\
        Forall (fun r => exists rec, run.run_scenario td r = Ok rec) before /\
        run.run_scenario td row = Raise e
  end.
Proof.
  revert output_df. induction scenarios_df as [|row rows IH]; intros output_df.
  - cbn [run.run_scenarios]. exists []. split; [now rewrite app_nil_r|constructor].
  - cbn [run.run_scenarios].
    destruct (run.run_scenario td row) as [rec|e] eqn:E; cbn [bind].
    + specialize (IH (output_df ++ [rec])).
      destruct (run.run_scenarios td rows (output_df ++ [rec])) as [out|e].
      * destruct IH as (recs & -> & Hall). exists (rec :: recs). split.
        -- now rewrite <- app_assoc.
        -- constructor; assumption.
      * destruct IH as (before & r & after & -> & Hall & Hr).
        exists (row :: before), r, after. split; [reflexivity|]. split; [|exact Hr].
        constructor; [now exists rec|exact Hall].
    + exists [], row, rows. split; [reflexivity|]. split; [constructor|exact E].
Qed.

(** X14: the loop of [main] returns either one record per row of the
    scenarios, in the order of the rows, or nothing: the first row on
    which the model raises ends the run with that error, the records of
    the rows before it being lost. *)
Theorem run_scenarios_all_or_nothing (td : parameters.time_distributions)
        (scenarios_df : list run.scenario) :
  match run.run_scenarios td scenarios_df [] with
  | Ok output_df =>
      Forall2 (fun row rec => run.run_scenario td row = Ok rec) scenarios_df output_df
  | Raise e =>
      exists before row after,
        scenarios_df = before ++ row :: after /\
        Forall (fun r => exists rec, run.run_scenario td r = Ok rec) before /\
        run.run_scenario td row = Raise e
  end.
Proof.
  assert (H := run_scenarios_cases td scenarios_df []).
  destruct (run.run_scenarios td scenarios_df []) as [out|e]; [|exact H].
  destruct H as (recs & -> & Hall). exact Hall.
Qed.

(** On a bundle whose tables are on one axis that is not empty, every
    scenario gives a record. *)
Lemma run_scenario_returns (td : parameters.time_distributions) (ax : list Z)
      (row : run.scenario) :
  ax <> [] ->
  Forall (fun df => pd.col_delay df = ax)
         [ parameters.total_time_to_contact td;
           parameters.target_total_time_to_contact td;
           parameters.secondary_symptoms_to_tertiary td;
           parameters.serial_interval td;
           parameters.time_to_tertiary_infection td ] ->
  exists rec, run.run_scenario td row = Ok rec.
Proof.
  intros Hne Hall.
  pose proof (Forall_inv Hall) as Hc. apply Forall_inv_tail in Hall.
  pose proof (Forall_inv Hall) as Htc. apply Forall_inv_tail in Hall.
  pose proof (Forall_inv Hall) as Hs. apply Forall_inv_tail in Hall.
  pose proof (Forall_inv Hall) as Hsi. apply Forall_inv_tail in Hall.
  pose proof (Forall_inv Hall) as Ht3. cbv beta in Hc, Htc, Hs, Hsi, Ht3.
  apply length_of_col_delay in Hc, Htc, Hs, Hsi, Ht3.
  assert (Hpos : (0 < length ax)%nat) by (destruct ax; [congruence|simpl; lia]).
  rewrite run_scenario_unfold.
  destruct (@TT_model_rum_returns
              (run.symptomatic_ascertainment_rate row)
              (run.symptomatic_rate row)
              (run.percentage_notified row)
              (run.compliance_with_symptom_isolation_test row)
              (run.compliance_with_symptom_isolation_no_test row)
              (run.contact_compliance_with_isolation row)
              (parameters.serial_interval td)
              (parameters.secondary_symptoms_to_tertiary td)
              (parameters.time_to_tertiary_infection td)
              (if String.eqb (run.Distribution row) "October Distribution"
               then parameters.total_time_to_contact td
               else parameters.target_total_time_to_contact td))
    as (impact & sacs & r & _ & _ & Hr & _).
  { unfold aligned. destruct (String.eqb (run.Distribution row) "October Distribution");
      lia. }
  rewrite Hr. cbn [bind]. eauto.
Qed.

(** X15: when [process_TT_e2e_file] gives a frame with at least one row
    for each of the two files and the option is 'he' or 'ashcroft', [main]
    returns one record per row of the scenarios, in the order of the rows,
    whatever values the rows hold: the bundle that
    [calculate_time_distributions] builds is accepted by [TT_model_rum]
    for every scenario. *)
Theorem main_returns
        (gamma_pdf : Qc -> Qc -> float64)
        (spline : list Qc -> list float64 -> Qc -> float64)
        (scenarios_df : list run.scenario)
        (e2e_file target_e2e_file : list ((Qc * Qc) * float64))
        (infectiousness_option : string) :
  (exists df, utils.process_TT_e2e_file spline e2e_file = Ok df /\ df <> []) ->
  (exists df, utils.process_TT_e2e_file spline target_e2e_file = Ok df /\ df <> []) ->
  infectiousness_option = "he"%string \/ infectiousness_option = "ashcroft"%string ->
  exists td output_df,
    parameters.calculate_time_distributions gamma_pdf spline e2e_file target_e2e_file
                                            infectiousness_option = Ok td /\
    run.main gamma_pdf spline scenarios_df e2e_file target_e2e_file infectiousness_option
    = Ok output_df /\
    Forall2 (fun row rec => run.run_scenario td row = Ok rec) scenarios_df output_df.
Proof.
  intros (e2e_df & He & Hene) (target_e2e_df & Ht & Htne) Hopt.
  destruct (calculate_time_distributions_returns
              gamma_pdf spline e2e_file target_e2e_file infectiousness_option
              e2e_df target_e2e_df He Hene Ht Htne Hopt)
    as (B & td & HB & Htd & _ & Hc & Htc & Hs2t & Hsi & Ht3 & _ & _).
  assert (Hax : np.arange (- B) (B + 1) <> []).
  { intros E. apply (f_equal (@length Z)) in E. rewrite length_arange in E.
    simpl in E. lia. }
  assert (Hall : Forall (fun df => pd.col_delay df = np.arange (- B) (B + 1))
                        [ parameters.total_time_to_contact td;
                          parameters.target_total_time_to_contact td;
                          parameters.secondary_symptoms_to_tertiary td;
                          parameters.serial_interval td;
                          parameters.time_to_tertiary_infection td ]).
  { repeat constructor; auto.
    - rewrite Hc. apply col_delay_on_axis.
    - rewrite Htc. apply col_delay_on_axis. }
  exists td. unfold run.main. rewrite Htd. cbn [bind].
  assert (H := run_scenarios_cases td scenarios_df []).
  destruct (run.run_scenarios td scenarios_df []) as [out|e].
  - destruct H as (recs & -> & HF). exists recs. auto.
  - exfalso. destruct H as (before & row & after & _ & _ & Hr).
    destruct (run_scenario_returns td (np.arange (- B) (B + 1)) row Hax Hall) as (rec & Hrec).
    rewrite Hrec in Hr. discriminate.
Qed.

Lemma main_returns_witness :
  exists td output_df,
    parameters.calculate_time_distributions ex.flat_pdf ex.flat_spline ex.e2e ex.e2e
                                            "ashcroft" = Ok td /\
    run.main ex.flat_pdf ex.flat_spline
             [ {| run.Scenario := "baseline";
                  run.symptomatic_rate := ex.half;
                  run.symptomatic_ascertainment_rate := ex.half;
                  run.percentage_notified := ex.half;
                  run.compliance_with_symptom_isolation_test := ex.half;
                  run.compliance_with_symptom_isolation_no_test := ex.half;
                  run.contact_compliance_with_isolation := ex.half;
                  run.Distribution := "October Distribution" |} ]
             ex.e2e ex.e2e "ashcroft"
    = Ok output_df /\
    Forall2 (fun row rec => run.run_scenario td row = Ok rec)
            [ {| run.Scenario := "baseline";
                 run.symptomatic_rate := ex.half;
                 run.symptomatic_ascertainment_rate := ex.half;
                 run.percentage_notified := ex.half;
                 run.compliance_with_symptom_isolation_test := ex.half;
                 run.compliance_with_symptom_isolation_no_test := ex.half;
                 run.contact_compliance_with_isolation := ex.half;
                 run.Distribution := "October Distribution" |} ]
            output_df.
Proof.
  apply main_returns.
  - exact process_TT_e2e_file_ex.
  - exact process_TT_e2e_file_ex.
  - right. reflexivity.
Defined.

(** ** The metrics are proportions *)


















Lemma product_le_one (x y : Qc) : (0 <= x -> x <= 1 -> 0 <= y -> y <= 1 -> x * y <= 1)%Qc.
Proof. intros. qc_to_q. nra. Qed.


















(** ** Reading the table of contact tracing delays *)






(** ** Nobody reached, or nobody compliant *)

(** X20: when one of [symptomatic_rate], [symptomatic_ascertainment_rate],
    [percentage_notified] and [compliance_with_contact_isolation] is 0
    (their product is), contact tracing adds nothing: on finite tables on
    one axis, [secondary_symptoms_to_tertiary] without negative
    frequencies, [contact_isolation_success],
    [symptom_and_contact_success] and [marginal_impact] are 0 and
    [transmission_averted] is [symptom_isolation_success]. *)
Theorem TT_model_rum_no_contact_tracing
        (sar sr pn ct cnt cc : Qc) (si s2t t3 c : pmf) :
  (sr * sar * pn * cc = 0)%Qc ->
  length si = length s2t -> length t3 = length s2t -> length c = length s2t ->
  (0 < length s2t)%nat -> nonneg s2t ->
  exists r sis,
    model.TT_model_rum (Fin sar) (Fin sr) (Fin pn) (Fin ct) (Fin cnt) (Fin cc)
                       (to_frame si) (to_frame s2t) (to_frame t3) (to_frame c) = Ok r /\
    dict_get r "contact_isolation_success" = Some 0%f /\
    dict_get r "symptom_and_contact_success" = Some 0%f /\
    dict_get r "symptom_isolation_success" = Some sis /\
    dict_get r "transmission_averted" = Some sis /\
    dict_get r "marginal_impact" = Some 0%f.
Proof.
  intros HK H1 H2 H3 H4 Hnn.
  rewrite (@TT_model_rum_Fin sar sr pn ct cnt cc si s2t t3 c H1 H2 H3 H4 Hnn).
  assert (Hcis : forall x, (sr * sar * pn * cc * x = 0)%Qc).
  { intros x. rewrite HK. ring. }
  assert (Hsacs : forall y x, (y * sr * sar * pn * cc * x = 0)%Qc).
  { intros y x.
    replace (y * sr * sar * pn * cc * x)%Qc with (y * (sr * sar * pn * cc) * x)%Qc by ring.
    rewrite HK. ring. }
  do 2 eexists. split; [reflexivity|].
  unfold exact_record, dict_get. cbn [find fst snd String.eqb Ascii.eqb Bool.eqb].
  rewrite Hcis, Hsacs.
  repeat split; do 2 f_equal; ring.
Qed.

Lemma TT_model_rum_no_contact_tracing_witness :
  exists r sis,
    model.TT_model_rum (Fin (dec 1 2)) (Fin (dec 7 10)) (Fin (dec 3 5))
                       (Fin (dec 9 10)) (Fin (dec 3 10)) (Fin 0)
                       (to_frame ex.now) (to_frame ex.after)
                       (to_frame ex.after) (to_frame ex.now) = Ok r /\
    dict_get r "contact_isolation_success" = Some 0%f /\
    dict_get r "symptom_and_contact_success" = Some 0%f /\
    dict_get r "symptom_isolation_success" = Some sis /\
    dict_get r "transmission_averted" = Some sis /\
    dict_get r "marginal_impact" = Some 0%f.
Proof.
  apply TT_model_rum_no_contact_tracing.
  - apply Qc_is_canon. reflexivity.
  - reflexivity.
  - reflexivity.
  - reflexivity.
  - simpl. lia.
  - exact nonneg_ex_after.
Defined.

(** ** An option that is neither 'he' nor 'ashcroft' *)

(** X21: with an infectiousness option other than 'he' and 'ashcroft',
    and two files that [process_TT_e2e_file] turns into frames with at
    least one row, [calculate_time_distributions] raises
    [UnboundLocalError], and so does [main], before any scenario is
    run. *)
Theorem main_unknown_option
        (gamma_pdf : Qc -> Qc -> float64)
        (spline : list Qc -> list float64 -> Qc -> float64)
        (scenarios_df : list run.scenario)
        (e2e_file target_e2e_file : list ((Qc * Qc) * float64))
        (infectiousness_option : string) :
  (exists df, utils.process_TT_e2e_file spline e2e_file = Ok df /\ df <> []) ->
  (exists df, utils.process_TT_e2e_file spline target_e2e_file = Ok df /\ df <> []) ->
  infectiousness_option <> "he"%string ->
  infectiousness_option <> "ashcroft"%string ->
  parameters.calculate_time_distributions gamma_pdf spline e2e_file target_e2e_file
                                          infectiousness_option
  = Raise UnboundLocalError /\
  run.main gamma_pdf spline scenarios_df e2e_file target_e2e_file infectiousness_option
  = Raise UnboundLocalError.
Proof.
  intros (e2e_df & He & Hene) (target_e2e_df & Ht & Htne) Hhe Hash.
  assert (H : parameters.calculate_time_distributions
                gamma_pdf spline e2e_file target_e2e_file infectiousness_option
              = Raise UnboundLocalError).
  { destruct (process_TT_e2e_file_axis _ _ _ He) as (a1 & b1 & Hax1).
    destruct (process_TT_e2e_file_axis _ _ _ Ht) as (a2 & b2 & Hax2).
    destruct (pad_with_zeros_returns [target_e2e_df; e2e_df] (40 * 24))
      as (B & HB & Hpad & _).
    { discriminate. }
    { repeat constructor; auto.
      - rewrite Hax2. apply arange_NoDup.
      - rewrite Hax1. apply arange_NoDup. }
    unfold parameters.calculate_time_distributions.
    rewrite He, Ht. cbn [bind]. rewrite Hpad. cbn [bind map].
    rewrite col_delay_on_axis, series_max_arange by lia.
    rewrite get_symptom_to_onward_vector_other by assumption. reflexivity. }
  split; [exact H|]. unfold run.main. rewrite H. reflexivity.
Qed.

Lemma main_unknown_option_witness :
  parameters.calculate_time_distributions ex.flat_pdf ex.flat_spline ex.e2e ex.e2e "wu"
  = Raise UnboundLocalError /\
  run.main ex.flat_pdf ex.flat_spline [] ex.e2e ex.e2e "wu" = Raise UnboundLocalError.
Proof.
  apply main_unknown_option.
  - exact process_TT_e2e_file_ex.
  - exact process_TT_e2e_file_ex.
  - discriminate.
  - discriminate.
Defined.
